(** * Interactive kbcli command builder (apecloud/botkube)

    A shallow embedding of the command guard
    ([internal/executor/kbcli/command], file [help.go]) and of the
    interactive builder ([internal/executor/kbcli/builder], file
    [kbcli.go]), together with the properties of the cascade that the
    design document states about them.

    Go slices are lists ([nil] is the empty list), Go maps are [gmap]s
    (or, where a [range] loop visits the map, the list of entries in the
    order the loop visits them), pointers that may be [nil] are
    [option]s, and a pair [(value, error)] is a Rocq pair whose second
    component is an [option error].  Calls on the logger are collected in
    a writer. *)

From Stdlib Require Import String Ascii List Bool Arith Lia DecimalString.
From stdpp Require Import gmap strings list fin_maps.

Open Scope string_scope.
Open Scope list_scope.

(* ===================================================================== *)
(** * Pieces of the Go standard library used by the code *)
(* ===================================================================== *)

(** Strings are sequences of bytes.  The functions below agree with
    those of Go on ASCII text; where Go looks at Unicode properties
    (white space, letter case) they look at the ASCII range only. *)
Module strings.

(** The double-quote character (the code point 34). *)
Definition dquote : string := String (ascii_of_nat 34) EmptyString.

(** The backslash character (the code point 92). *)
Definition backslash : string := String (ascii_of_nat 92) EmptyString.

(** [unicode.IsSpace] on the ASCII range: tab, line feed, vertical tab,
    form feed, carriage return and space. *)
Definition isSpace (c : ascii) : bool :=
  let n := nat_of_ascii c in
  (((9 <=? n) && (n <=? 13)) || (n =? 32))%nat.

(** [strings.Fields]: the maximal runs of non-space characters. [cur] is
    the field being read, in reverse. *)
Fixpoint fields_go (cur : list ascii) (s : string) : list string :=
  match s with
  | EmptyString =>
      match cur with
      | [] => []
      | _ => [string_of_list_ascii (rev cur)]
      end
  | String c s' =>
      if isSpace c then
        match cur with
        | [] => fields_go [] s'
        | _ => string_of_list_ascii (rev cur) :: fields_go [] s'
        end
      else fields_go (c :: cur) s'
  end.

Definition Fields (s : string) : list string := fields_go [] s.

(** [strings.ToLower] on the ASCII range: [A]..[Z] become [a]..[z]. *)
Definition toLowerAscii (c : ascii) : ascii :=
  let n := nat_of_ascii c in
  if ((65 <=? n) && (n <=? 90))%nat then ascii_of_nat (n + 32) else c.

Fixpoint ToLower (s : string) : string :=
  match s with
  | EmptyString => EmptyString
  | String c s' => String (toLowerAscii c) (ToLower s')
  end.

(** [strings.HasPrefix s prefix]. *)
Definition HasPrefix (s pre : string) : bool := String.prefix pre s.

(** [strings.Contains s substr]. *)
Fixpoint Contains (s substr : string) : bool :=
  String.prefix substr s ||
  match s with
  | EmptyString => false
  | String _ s' => Contains s' substr
  end.

(** [strings.TrimPrefix s prefix]. *)
Definition TrimPrefix (s pre : string) : string :=
  if String.prefix pre s
  then String.substring (String.length pre) (String.length s - String.length pre) s
  else s.

(** [strings.TrimSpace] on the ASCII range. *)
Fixpoint trimLeft (s : string) : string :=
  match s with
  | EmptyString => EmptyString
  | String c s' => if isSpace c then trimLeft s' else s
  end.

Definition TrimSpace (s : string) : string :=
  String.rev (trimLeft (String.rev (trimLeft s))).

(** [strings.Join elems sep]. *)
Fixpoint Join (elems : list string) (sep : string) : string :=
  match elems with
  | [] => EmptyString
  | [x] => x
  | x :: rest => x +:+ sep +:+ Join rest sep
  end.

(** The verb [%q] of [fmt] on a string ([strconv.Quote]): the text
    between double quotes, with the double quote and the backslash
    escaped by a backslash.
    Bytes that Go would write as an escape sequence (control characters,
    invalid UTF-8) are left as they are. *)
Fixpoint escape (s : string) : string :=
  match s with
  | EmptyString => EmptyString
  | String c s' =>
      let n := nat_of_ascii c in
      if ((n =? 34) || (n =? 92))%nat
      then backslash +:+ String c (escape s')
      else String c (escape s')
  end.

Definition Quote (s : string) : string := dquote +:+ escape s +:+ dquote.

(** Where the functions above are those of Go.  On a text of ASCII
    bytes, [Fields], [ToLower], [TrimSpace] and [runner.EqualFold] give
    what Go gives; on a text of printable ASCII bytes (32 to 126),
    [Quote] gives what the verb [%q] gives.  The properties below that
    apply these functions to text that a user types are stated for such
    text. *)
Definition isASCII (s : string) : bool :=
  forallb (fun c => (nat_of_ascii c <? 128)%nat) (list_ascii_of_string s).

Definition isPrintable (s : string) : bool :=
  forallb (fun c => ((32 <=? nat_of_ascii c) && (nat_of_ascii c <=? 126))%nat)
    (list_ascii_of_string s).

End strings.

(* ===================================================================== *)
(** * Errors and logging *)
(* ===================================================================== *)

(** Go [error] values.  The four sentinels made by [errors.New] are
    compared by identity in the code ([switch err]), so each is a
    constructor of its own.  [ErrGroupDiscoveryFailed] is client-go's
    [*discovery.ErrGroupDiscoveryFailed]; of every per-group error the
    code reads only the text [Error()], which is what [Groups] holds,
    keyed by group version.  [Errorf_w] is [fmt.Errorf] with the verb
    [%w], and [foreignError] any other error, with its text. *)
Inductive error : Type :=
| ErrCmdNotSupported
| ErrResourceNotFound
| errUnsupportedCommand
| errRequiredCmdDropdown
| ErrGroupDiscoveryFailed (Groups : list (string * string))
| Errorf_w (prefix : string) (err : error)
| foreignError (text : string).

Global Instance error_eq_dec : EqDecision error.
Proof. solve_decision. Defined.

(** The text of an error.  For a group discovery failure the text lists
    the groups (client-go sorts them, here they come in the order of
    [Groups]); the code reads this text only to log it. *)
Fixpoint Error (e : error) : string :=
  match e with
  | ErrCmdNotSupported => "command not supported"
  | ErrResourceNotFound => "resource not found"
  | errUnsupportedCommand => "unsupported command"
  | errRequiredCmdDropdown => "command dropdown select cannot be empty"
  | ErrGroupDiscoveryFailed groups =>
      "unable to retrieve the complete list of server APIs: " +:+
      strings.Join (map (fun kv => fst kv +:+ ": " +:+ snd kv) groups) ", "
  | Errorf_w pre err => pre +:+ ": " +:+ Error err
  | foreignError text => text
  end.

Inductive Level : Type := DebugLevel | InfoLevel | WarnLevel | ErrorLevel.

(** One call on the [logrus.FieldLogger]: the level, the message and the
    fields attached with [WithField]/[WithFields] (their values
    printed). *)
Record LogEntry : Type := mkLogEntry {
  entryLevel : Level;
  entryMessage : string;
  entryFields : list (string * string)
}.

(** A computation that logs: its result and the entries it wrote, in
    order. *)
Definition Logged (A : Type) : Type := A * list LogEntry.

Definition ret {A} (a : A) : Logged A := (a, []).

Definition bind {A B} (m : Logged A) (f : A -> Logged B) : Logged B :=
  let (a, l1) := m in
  let (b, l2) := f a in
  (b, l1 ++ l2).

Definition logf (lvl : Level) (fields : list (string * string)) (msg : string)
  : Logged unit :=
  (tt, [mkLogEntry lvl msg fields]).

Declare Scope logged_scope.
Delimit Scope logged_scope with logged.
Notation "x <- m ;; k" := (bind m (fun x => k))
  (at level 100, m at next level, right associativity) : logged_scope.
Notation "m ;;; k" := (bind m (fun _ => k))
  (at level 100, right associativity) : logged_scope.

Global Arguments bind : simpl never.

(* ===================================================================== *)
(** * Package [command]: the command guard ([help.go]) *)
(* ===================================================================== *)

Module command.

(** [Resource] represents a Kubernetes resource; [Name] is always
    plural. *)
Record Resource : Type := mkResource {
  Name : string;
  Namespaced : bool
}.

(** The zero value [Resource{}]. *)
Definition zeroResource : Resource := mkResource EmptyString false.

(** [v1.APIResource] of apimachinery, with the fields that tell two
    descriptors of one name apart. *)
Record APIResource : Type := mkAPIResource {
  apiName : string;
  apiNamespaced : bool;
  apiGroup : string;
  apiKind : string
}.

Global Instance APIResource_eq_dec : EqDecision APIResource.
Proof. solve_decision. Defined.

(** [v1.APIResourceList]: the resources of one group version. *)
Record APIResourceList : Type := mkAPIResourceList {
  GroupVersion : string;
  APIResources : list APIResource
}.

(** [K8sDiscoveryInterface]: the one method [ServerPreferredResources]
    takes no argument, so an implementation is its answer: the lists
    found and the error (both may be present). *)
Record K8sDiscoveryInterface : Type := mkDiscovery {
  ServerPreferredResources : list APIResourceList * option error
}.

(** [CommandGuard]; the logger is the writer. *)
Record CommandGuard : Type := NewCommandGuard {
  discoveryCli : K8sDiscoveryInterface
}.

(** Commands that are not supported for interactive operations. *)
Definition unsupportedGlobalCmds : gset string :=
  {[ "playground"; "bench" ]}.

(** Command resource map. *)
Definition cmdResource : gmap string Resource :=
  {[ "cluster" := mkResource "cluster" true ]}.

Definition cmdVerbs : gmap string (list string) :=
  list_to_map
    [ ("cluster",
       [ "create"; "connect"; "describe"; "list"; "list-instances";
         "list-components"; "list-events"; "list-accounts"; "delete";
         "update"; "restart"; "upgrade"; "volume-expand"; "vscale";
         "hscale"; "describe-ops"; "list-ops"; "delete-ops"; "configure";
         "expose"; "describe-configure"; "explain-configure";
         "diff-configure"; "stop"; "start";
         "backup"; "list-backups"; "delete-backup"; "restore";
         "list-restores"; "delete-restore";
         "logs"; "list-logs" ]);
      ("kubeblocks",
       [ "install"; "list-versions"; "preflight"; "status"; "uninstall";
         "upgrade" ]);
      ("clusterdefinition", [ "list" ]);
      ("clusterversion", [ "list" ]) ].

(** [slices.Filter d s keep] of k8s.io/utils: appends to [d] the
    elements of [s] that [keep] accepts, in order. *)
Fixpoint slices_Filter (d s : list string) (keep : string -> bool)
  : list string :=
  match s with
  | [] => d
  | x :: s' => slices_Filter (if keep x then d ++ [x] else d) s' keep
  end.

(** [FilterSupportedCmds] filters out the commands that the interactive
    builder does not support. *)
Definition FilterSupportedCmds (allVerbs : list string) : list string :=
  slices_Filter [] allVerbs
    (fun s =>
       let exists_ := bool_decide (s ∈ unsupportedGlobalCmds) in
       negb exists_).

(** [GetAllowedVerbsForCmd] returns a list of allowed verbs for a given
    cmd.  The parameter [verbs] is overwritten by the table lookup. *)
Definition GetAllowedVerbsForCmd (cmd : string) (verbs : list string)
  : list string * option error :=
  match cmdVerbs !! cmd with
  | None => ([], None)
  | Some verbs' => (verbs', None)
  end.

(** [GetResourceDetails] returns the [Resource] of a command. *)
Definition GetResourceDetails (cmd : string) : Resource * option error :=
  match cmdResource !! cmd with
  | None => (zeroResource, None)
  | Some res => (res, None)
  end.

(** [shouldIgnoreResourceListError]: true when the error is a group
    discovery failure whose per-group errors all say that the response
    was empty. *)
Fixpoint allEmptyResponses (groups : list (string * string)) : bool :=
  match groups with
  | [] => true
  | (_, currentErr) :: rest =>
      if strings.Contains currentErr "Got empty response for"
      then allEmptyResponses rest
      else false
  end.

Definition shouldIgnoreResourceListError (err : error) : bool :=
  match err with
  | ErrGroupDiscoveryFailed groups => allEmptyResponses groups
  | _ => false
  end.

(** The inner loop of [GetServerResourceMap] over the resources of one
    group version. *)
Fixpoint addResources (groupVersion : string) (resources : list APIResource)
  (resourceMap : gmap string APIResource) : Logged (gmap string APIResource) :=
  match resources with
  | [] => ret resourceMap
  | res :: rest =>
      match resourceMap !! apiName res with
      | Some _ =>
          (logf DebugLevel []
             ("Skipping resource with the same name " +:+
              strings.Quote (apiName res) +:+ " (" +:+
              strings.Quote groupVersion +:+ ")...") ;;;
           addResources groupVersion rest resourceMap)%logged
      | None =>
          addResources groupVersion rest (<[apiName res := res]> resourceMap)
      end
  end.

(** The outer loop of [GetServerResourceMap] over the lists. *)
Fixpoint addLists (resList : list APIResourceList)
  (resourceMap : gmap string APIResource) : Logged (gmap string APIResource) :=
  match resList with
  | [] => ret resourceMap
  | item :: rest =>
      (m <- addResources (GroupVersion item) (APIResources item) resourceMap ;;
       addLists rest m)%logged
  end.

(** [GetServerResourceMap] returns a map of all resources available on
    the server.  LIMITATION: it ignores second occurrences of the same
    resource name.  The [nil] map of the failing return is the empty
    map. *)
Definition GetServerResourceMap (g : CommandGuard)
  : Logged (gmap string APIResource * option error) :=
  let (resList, err) := ServerPreferredResources (discoveryCli g) in
  match err with
  | Some err' =>
      if negb (shouldIgnoreResourceListError err') then
        ret (∅, Some (Errorf_w "while getting resource list from K8s cluster" err'))
      else
        (logf WarnLevel []
           ("Ignoring error while getting resource list from K8s cluster: "
            +:+ Error err') ;;;
         resourceMap <- addLists resList ∅ ;;
         ret (resourceMap, None))%logged
  | None =>
      (resourceMap <- addLists resList ∅ ;;
       ret (resourceMap, None))%logged
  end.

(** [GetResourceDetailsFromMap] returns the [Resource] of a resource
    type from the server resource map. *)
Definition GetResourceDetailsFromMap (resourceType : string)
  (resMap : gmap string APIResource) : Resource * option error :=
  match resMap !! resourceType with
  | None => (zeroResource, Some ErrResourceNotFound)
  | Some res => (mkResource (apiName res) (apiNamespaced res), None)
  end.

Definition GetResourceTypeForCmd (cmd : string) : string :=
  match cmdResource !! cmd with
  | None => EmptyString
  | Some resource => Name resource
  end.

(** The first descriptor of a name in a list of resources, in terms of
    which the merge of [GetServerResourceMap] is stated. *)
Definition firstNamed (name : string) (resources : list APIResource)
  : option APIResource :=
  List.find (λ res, bool_decide (apiName res = name)) resources.

End command.

(* ===================================================================== *)
(** * Package [api]: the messages handed to the chat platform *)
(* ===================================================================== *)

Module api.

(** Modelled from the spec: the package [pkg/api] is not part of the
    sources at hand.  The records below have the fields that [kbcli.go]
    reads or writes ([Message.ReplaceOriginal],
    [Message.OnlyVisibleForYou], [Message.Sections], [Section.Selects],
    [Section.Base.Body.Plaintext], [Selects.ID], [Selects.Items],
    [Select.InitialOption.Value]) and those a menu and a preview block
    need: a menu is an ordered sequence of options with an optional
    initially selected option, an option a label and a value. *)
Record OptionItem : Type := mkOptionItem {
  OptionItem_Name : string;
  OptionItem_Value : string
}.

Record OptionGroup : Type := mkOptionGroup {
  OptionGroup_Name : string;
  OptionGroup_Options : list OptionItem
}.

Inductive SelectType : Type := StaticSelect | ExternalSelect.

Record Select : Type := mkSelect {
  Select_Type : SelectType;
  Select_Name : string;
  Select_Command : string;
  Select_OptionGroups : list OptionGroup;
  Select_InitialOption : option OptionItem
}.

Record Selects : Type := mkSelects {
  Selects_ID : string;
  Selects_Items : list Select
}.

Record Body : Type := mkBody {
  Body_CodeBlock : string;
  Body_Plaintext : string
}.

Record Base : Type := mkBase {
  Base_Header : string;
  Base_Body : Body
}.

Record LabelInput : Type := mkLabelInput {
  LabelInput_Command : string;
  LabelInput_Text : string;
  LabelInput_Placeholder : string
}.

Record Section : Type := mkSection {
  Section_Base : Base;
  Section_Selects : Selects;
  Section_PlaintextInputs : list LabelInput
}.

Record Message : Type := mkMessage {
  Message_BaseBody : Body;
  Message_Sections : list Section;
  Message_OnlyVisibleForYou : bool;
  Message_ReplaceOriginal : bool
}.

Global Instance OptionItem_eq_dec : EqDecision OptionItem.
Proof. solve_decision. Defined.
Global Instance OptionGroup_eq_dec : EqDecision OptionGroup.
Proof. solve_decision. Defined.
Global Instance SelectType_eq_dec : EqDecision SelectType.
Proof. solve_decision. Defined.
Global Instance Select_eq_dec : EqDecision Select.
Proof. solve_decision. Defined.
Global Instance Selects_eq_dec : EqDecision Selects.
Proof. solve_decision. Defined.
Global Instance Body_eq_dec : EqDecision Body.
Proof. solve_decision. Defined.
Global Instance Base_eq_dec : EqDecision Base.
Proof. solve_decision. Defined.
Global Instance LabelInput_eq_dec : EqDecision LabelInput.
Proof. solve_decision. Defined.
Global Instance Section_eq_dec : EqDecision Section.
Proof. solve_decision. Defined.
Global Instance Message_eq_dec : EqDecision Message.
Proof. solve_decision. Defined.

(** Zero values. *)
Definition zeroBody : Body := mkBody EmptyString EmptyString.
Definition zeroBase : Base := mkBase EmptyString zeroBody.
Definition zeroSelects : Selects := mkSelects EmptyString [].
Definition zeroSection : Section := mkSection zeroBase zeroSelects [].
Definition zeroMessage : Message := mkMessage zeroBody [] false false.

(** Modelled from the spec: [NewPlaintextMessage] of [pkg/api] is not
    part of the sources at hand; the render result called a plain
    text-only message, its text in a code block when asked. *)
Definition NewPlaintextMessage (msg : string) (useCodeBlock : bool) : Message :=
  mkMessage
    (if useCodeBlock then mkBody msg EmptyString else mkBody EmptyString msg)
    [] false false.

End api.

(* ===================================================================== *)
(** * Package [builder]: the interactive command builder ([kbcli.go]) *)
(* ===================================================================== *)

Module builder.

Definition interactiveBuilderIndicator : string := "@builder".
Definition cmdsDropdownCommand : string := "@builder --cmds".
Definition verbsDropdownCommand : string := "@builder --verbs".
Definition resourceNamesDropdownCommand : string := "@builder --resource-name".
Definition resourceNamespaceDropdownCommand : string := "@builder --namespace".
Definition filterPlaintextInputCommand : string := "@builder --filter-query".
Definition kbcliCommandName : string := "kbcli".
Definition dropdownItemsLimit : nat := 100.
Definition kbcliMissingCommandMsg : string := "Please specify the kbcli command".

(** ** Configuration *)

(** [AllowedResources] describes the building blocks of the builder. *)
Record AllowedResources : Type := mkAllowedResources {
  Namespaces : list string;
  Cmds : list string;
  Verbs : list string
}.

Record Config : Type := mkConfig {
  Allowed : AllowedResources
}.

(** [DefaultConfig] returns default configuration for command builder. *)
Definition DefaultConfig : Config :=
  mkConfig
    (mkAllowedResources
       []
       [ "cluster"; "kubeblocks"; "clusterdefinition"; "clusterversion";
         "playground" ]
       [ "list" ]).

(** ** Collaborators *)

(** The interface [CommandGuard] of the builder, with the methods that
    [kbcli.go] calls. *)
Record CommandGuard : Type := mkCommandGuard {
  FilterSupportedCmds : list string -> list string;
  GetAllowedVerbsForCmd : string -> list string -> list string * option error;
  GetResourceDetails : string -> command.Resource * option error;
  GetResourceTypeForCmd : string -> string
}.

(** The guard of package [command] behind that interface. *)
Definition commandGuardOf : CommandGuard :=
  mkCommandGuard
    command.FilterSupportedCmds
    command.GetAllowedVerbsForCmd
    command.GetResourceDetails
    command.GetResourceTypeForCmd.

(** The interface [NamespaceLister]: [List] is called with the limit of
    [metav1.ListOptions] and answers the names of the items of the
    namespace list, or an error. *)
Record NamespaceLister : Type := mkNamespaceLister {
  List_ : nat -> list string * option error
}.

(** The interface [KubectlRunner]: the kubeconfig path, the default
    namespace and the command line give the output or an error. *)
Record KubectlRunner : Type := mkKubectlRunner {
  RunKubectlCommand : string -> string -> string -> string * option error
}.

(** What the code reads from the process: the environment
    ([os.Getenv]) and the next random UUID ([uuid.NewRandom], printed
    with [String]). *)
Record Runtime : Type := mkRuntime {
  Getenv : string -> string;
  uuidNewRandom : string * option error
}.

(** [Kbcli] provides functionality to handle interactive kbcli command
    selection.  The logger is the writer; the field [authCheck] is never
    read by the code below. *)
Record Kbcli : Type := NewKbcli {
  kcRunner : KubectlRunner;
  cfg : Config;
  commandGuard : CommandGuard;
  defaultNamespace : string;
  namespaceLister : NamespaceLister
}.

(** ** Selection state *)

Record stateDetails : Type := mkStateDetails {
  dropdownsBlockID : string;
  cmd : string;
  namespace : string;
  verb : string;
  resourceName : string;
  filter : string
}.

Global Instance stateDetails_eq_dec : EqDecision stateDetails.
Proof. solve_decision. Defined.

Definition zeroStateDetails : stateDetails :=
  mkStateDetails EmptyString EmptyString EmptyString EmptyString EmptyString
    EmptyString.

Definition set_dropdownsBlockID (v : string) (s : stateDetails) : stateDetails :=
  mkStateDetails v (cmd s) (namespace s) (verb s) (resourceName s) (filter s).
Definition set_cmd (v : string) (s : stateDetails) : stateDetails :=
  mkStateDetails (dropdownsBlockID s) v (namespace s) (verb s) (resourceName s)
    (filter s).
Definition set_namespace (v : string) (s : stateDetails) : stateDetails :=
  mkStateDetails (dropdownsBlockID s) (cmd s) v (verb s) (resourceName s)
    (filter s).
Definition set_verb (v : string) (s : stateDetails) : stateDetails :=
  mkStateDetails (dropdownsBlockID s) (cmd s) (namespace s) v (resourceName s)
    (filter s).
Definition set_resourceName (v : string) (s : stateDetails) : stateDetails :=
  mkStateDetails (dropdownsBlockID s) (cmd s) (namespace s) (verb s) v
    (filter s).
Definition set_filter (v : string) (s : stateDetails) : stateDetails :=
  mkStateDetails (dropdownsBlockID s) (cmd s) (namespace s) (verb s)
    (resourceName s) v.

(** The state as the logger prints it. *)
Definition fmtState (s : stateDetails) : string :=
  "{" +:+
  strings.Join
    [ dropdownsBlockID s; cmd s; namespace s; verb s; resourceName s; filter s ]
    " " +:+ "}".

(** [slack.BlockAction] and [slack.BlockActionStates] of slack-go, with
    the fields the extractor reads.  [Values] lists the entries of the
    two nested maps in the order in which the [range] loops visit
    them. *)
Record BlockAction : Type := mkBlockAction {
  SelectedOption_Value : string;
  BlockAction_Value : string
}.

Record BlockActionStates : Type := mkBlockActionStates {
  Values : list (string * list (string * BlockAction))
}.

(** ** Menu helpers of the package that [kbcli.go] calls *)

(** Modelled from the spec: [dropdownItem] and [newDropdownItem] are
    declared in a file of the package that is not part of the sources at
    hand; a menu option is a label ([Name], the field the code above
    writes) and a value. *)
Record dropdownItem : Type := newDropdownItem {
  Name : string;
  Value : string
}.

(** The functional options of [KbcliCmdBuilderMessage], as data. *)
Inductive KbcliCmdBuilderOption : Type :=
| WithAdditionalSelects (in_ : list (option api.Select))
| WithAdditionalSections (in_ : list api.Section).

(** The functions of package [builder] that [kbcli.go] calls and another
    file declares.  The code is embedded over any implementation of
    them; [specParts] below is the one the design document describes. *)
Record Parts : Type := mkParts {
  CmdSelect : list string -> string -> option api.Select;
  VerbSelect : list string -> string -> option api.Select;
  ResourceNamesSelect : list string -> string -> option api.Select;
  ResourceNamespaceSelect : list dropdownItem -> dropdownItem -> option api.Select;
  EmptyResourceNameDropdown : option api.Select;
  KbcliCmdBuilderMessage :
    string -> api.Select -> list KbcliCmdBuilderOption -> api.Message;
  PreviewSection : string -> api.Section -> list api.Section;
  FilterSection : api.Section;
  InternalErrorSection : api.Section;
  overflowSentence : list string -> list string;
  getNonEmptyLines : string -> list string
}.

(** ** The code of [kbcli.go] *)

(** [ShouldHandle] returns true if it's a valid command for interactive
    builder. *)
Definition ShouldHandle (cmd : string) : bool :=
  if bool_decide (cmd = EmptyString)
     || strings.HasPrefix cmd interactiveBuilderIndicator
  then true
  else false.

Definition message (msg : string) : api.Message * option error :=
  (api.NewPlaintextMessage msg true, None).

Definition initialMessage (p : Parts) (rt : Runtime) (allCmds : list string)
  : api.Message * option error :=
  let empty := api.zeroMessage in
  let (id, err) := uuidNewRandom rt in
  match err with
  | Some err' => (empty, Some err')
  | None =>
      match CmdSelect p allCmds EmptyString with
      | None => (empty, Some errRequiredCmdDropdown)
      | Some allCmdsSelect =>
          let msg := KbcliCmdBuilderMessage p id allCmdsSelect [] in
          (api.mkMessage (api.Message_BaseBody msg) (api.Message_Sections msg)
             (api.Message_OnlyVisibleForYou msg) false,
           None)
      end
  end.

(** [errMessage]; [plaintext] is [fmt.Sprintf(errMsgFormat, args...)],
    formatted by the caller. *)
Definition errMessage (p : Parts) (rt : Runtime) (allVerbs : list string)
  (plaintext : string) : api.Message * option error :=
  let (dropdownsBlockID, err) := uuidNewRandom rt in
  match err with
  | Some err' => (api.zeroMessage, Some err')
  | None =>
      let selects :=
        api.mkSection api.zeroBase
          (api.mkSelects dropdownsBlockID
             match CmdSelect p allVerbs EmptyString with
             | Some allVerbsSelect => [allVerbsSelect]
             | None => []
             end)
          [] in
      let errBody :=
        api.mkSection
          (api.mkBase EmptyString (api.mkBody EmptyString plaintext))
          api.zeroSelects [] in
      (api.mkMessage api.zeroBody [selects; errBody] true true, None)
  end.

Definition contains (matchingTypes : option api.Select) (resourceType : string)
  : bool :=
  match matchingTypes with
  | None => false
  | Some sel =>
      match api.Select_InitialOption sel with
      | Some opt =>
          if bool_decide (api.OptionItem_Value opt = resourceType)
          then true else false
      | None => false
      end
  end.

Global Arguments contains : simpl never.

Definition buildCommandPreview (p : Parts) (e : Kbcli) (state : stateDetails)
  : Logged (list api.Section) :=
  let cmd0 := kbcliCommandName +:+ " " +:+ cmd state +:+ " " +:+ verb state in
  let resourceNameSeparator := " " in
  let cmd1 :=
    if negb (bool_decide (resourceName state = EmptyString))
    then cmd0 +:+ resourceNameSeparator +:+ resourceName state
    else cmd0 in
  let (resourceDetails, err) := GetResourceDetails (commandGuard e) (cmd state) in
  match err with
  | Some err' =>
      (logf ErrorLevel [("state", fmtState state); ("error", Error err')]
         "Cannot get resource details" ;;;
       ret [InternalErrorSection p])%logged
  | None =>
      let cmd2 :=
        if command.Namespaced resourceDetails
           && negb (bool_decide (namespace state = EmptyString))
        then cmd1 +:+ " -n " +:+ namespace state
        else cmd1 in
      let cmd3 :=
        if negb (bool_decide (filter state = EmptyString))
        then cmd2 +:+ " --filter=" +:+ strings.Quote (filter state)
        else cmd2 in
      ret (PreviewSection p cmd3 (FilterSection p))
  end.

(** The command line with which the resource names are listed. *)
Definition getNamesCmd (resourceType ns : string) : string :=
  let cmd0 :=
    "get " +:+ resourceType +:+
    " --ignore-not-found=true -o go-template='{{range .items}}{{.metadata.name}}{{"
    +:+ strings.dquote +:+ "\n" +:+ strings.dquote +:+ "}}{{end}}'" in
  if negb (bool_decide (ns = EmptyString))
  then cmd0 +:+ " -n " +:+ ns
  else cmd0.

Definition tryToGetResourceNamesSelect (p : Parts) (rt : Runtime) (e : Kbcli)
  (state : stateDetails) : Logged (option api.Select) :=
  (logf InfoLevel [] "Get resource names" ;;;
   if bool_decide (verb state = EmptyString) then
     logf InfoLevel [] "Return empty resource name" ;;;
     ret (EmptyResourceNameDropdown p)
   else
     let resourceType := GetResourceTypeForCmd (commandGuard e) (cmd state) in
     if bool_decide (resourceType = EmptyString) then ret None
     else
       let cmd := getNamesCmd resourceType (namespace state) in
       logf InfoLevel [] ("Run cmd " +:+ strings.Quote cmd) ;;;
       let (out, err) :=
         RunKubectlCommand (kcRunner e) (Getenv rt "KUBECONFIG")
           (defaultNamespace e) cmd in
       match err with
       | Some err' =>
           logf ErrorLevel [("error", Error err')]
             "Cannot fetch resource names. Returning empty resource name dropdown." ;;;
           ret (EmptyResourceNameDropdown p)
       | None =>
           let lines := getNonEmptyLines p out in
           if (length lines =? 0)%nat then ret (EmptyResourceNameDropdown p)
           else
             ret (ResourceNamesSelect p (overflowSentence p lines)
                    (resourceName state))
       end)%logged.

Definition collectAdditionalNamespaces (e : Kbcli) : Logged (list string) :=
  if (0 <? length (Namespaces (Allowed (cfg e))))%nat then
    ret (Namespaces (Allowed (cfg e)))
  else
    let (allClusterNamespaces, err) :=
      List_ (namespaceLister e) dropdownItemsLimit in
    match err with
    | Some err' =>
        (logf ErrorLevel [("error", Error err')]
           "Cannot fetch all available Kubernetes namespaces, ignoring namespace dropdown..." ;;;
         ret [])%logged
    | None => ret allClusterNamespaces
    end.

(** UX requirement to append the (namespace) suffix if the namespace is
    called [default]. *)
Definition appendNamespaceSuffixIfDefault (in_ : dropdownItem) : dropdownItem :=
  if bool_decide (Name in_ = "default")
  then newDropdownItem (Name in_ +:+ " (namespace)") (Value in_)
  else in_.

(** The loop of [tryToGetNamespaceSelect] over the additional
    namespaces. *)
Fixpoint appendNamespaces (current : string) (names : list string)
  (allNs : list dropdownItem) : list dropdownItem :=
  match names with
  | [] => allNs
  | name :: rest =>
      let kv := newDropdownItem name name in
      if bool_decide (name = current)
      then appendNamespaces current rest allNs
      else appendNamespaces current rest (allNs ++ [kv])
  end.

Definition tryToGetNamespaceSelect (p : Parts) (e : Kbcli)
  (details : stateDetails) : Logged (option api.Select) :=
  let initialNamespace := newDropdownItem (namespace details) (namespace details) in
  let initialNamespace := appendNamespaceSuffixIfDefault initialNamespace in
  (additional <- collectAdditionalNamespaces e ;;
   let allNs := appendNamespaces (namespace details) additional [initialNamespace] in
   ret (ResourceNamespaceSelect p allNs initialNamespace))%logged.

(** [getAllowedVerbsSelectList] returns dropdown select with allowed
    verbs for a given cmd. *)
Definition getAllowedVerbsSelectList (p : Parts) (e : Kbcli) (cmd : string)
  (verbs : list string) (verb : string) : option api.Select * option error :=
  let (allowedVerbs, err) := GetAllowedVerbsForCmd (commandGuard e) cmd verbs in
  match err with
  | Some err' => (None, Some err')
  | None =>
      let allowedVerbsList := fold_left (fun acc item => acc ++ [item]) allowedVerbs [] in
      (VerbSelect p allowedVerbsList verb, None)
  end.

(** The body of [renderMessage], returning next to its results the value
    that its local copy of [stateDetails] has when it returns: the
    output state of the render pass. *)
Definition renderMessage_st (p : Parts) (rt : Runtime) (e : Kbcli)
  (details : stateDetails) (allCmds allVerbs : list string)
  : Logged (stateDetails * (api.Message * option error)) :=
  let empty := api.zeroMessage in
  match CmdSelect p allCmds (cmd details) with
  | None => ret (details, (empty, Some errRequiredCmdDropdown))
  | Some allCmdsSelect =>
      (* 1. Refresh verbs list *)
      let (matchingVerbs, err) :=
        getAllowedVerbsSelectList p e (cmd details) allVerbs
          (verb details) in
      match err with
      | Some err' => ret (details, (empty, Some err'))
      | None =>
          match matchingVerbs with
          | None =>
              (* 2. The command doesn't have assigned verbs *)
              let details := set_verb EmptyString details in
              let details := set_resourceName EmptyString details in
              let details := set_namespace EmptyString details in
              (preview <- buildCommandPreview p e details ;;
               ret (details,
                    (KbcliCmdBuilderMessage p (dropdownsBlockID details)
                       allCmdsSelect [WithAdditionalSections preview],
                     None)))%logged
          | Some _ =>
              if negb (contains matchingVerbs (verb details)) then
                (* 3. The verb is not on the list anymore *)
                ret (details,
                     (KbcliCmdBuilderMessage p (dropdownsBlockID details)
                        allCmdsSelect [WithAdditionalSelects [matchingVerbs]],
                      None))
              else
                (resNames <- tryToGetResourceNamesSelect p rt e details ;;
                 nsNames <- tryToGetNamespaceSelect p e details ;;
                 match resNames with
                 | None =>
                     let details := set_resourceName EmptyString details in
                     let details := set_namespace EmptyString details in
                     preview <- buildCommandPreview p e details ;;
                     ret (details,
                          (KbcliCmdBuilderMessage p (dropdownsBlockID details)
                             allCmdsSelect
                             [WithAdditionalSelects [matchingVerbs];
                              WithAdditionalSections preview],
                           None))
                 | Some _ =>
                     (* 4. A resource name that is not on the list is cleared *)
                     let details :=
                       if negb (contains resNames (resourceName details))
                       then set_resourceName EmptyString details
                       else details in
                     (* 5. A namespace that is not on the list is cleared *)
                     let details :=
                       if negb (contains nsNames (namespace details))
                       then set_namespace EmptyString details
                       else details in
                     (* 6. All dropdowns and the full command preview *)
                     preview <- buildCommandPreview p e details ;;
                     ret (details,
                          (KbcliCmdBuilderMessage p (dropdownsBlockID details)
                             allCmdsSelect
                             [WithAdditionalSelects [matchingVerbs; resNames; nsNames];
                              WithAdditionalSections preview],
                           None))
                 end)%logged
          end
      end
  end.

(** [renderMessage]: the message and the error. *)
Definition renderMessage (p : Parts) (rt : Runtime) (e : Kbcli)
  (details : stateDetails) (allCmds allVerbs : list string)
  : Logged (api.Message * option error) :=
  let (r, log) := renderMessage_st p rt e details allCmds allVerbs in
  (snd r, log).

(** The inner loop of [extractStateDetails] over the actions of one
    block. *)
Fixpoint extractBlock (blocks : list (string * BlockAction))
  (details : stateDetails) : stateDetails :=
  match blocks with
  | [] => details
  | (id, act) :: rest =>
      let id := strings.TrimPrefix id kbcliCommandName in
      let id := strings.TrimSpace id in
      let details :=
        if bool_decide (id = cmdsDropdownCommand) then
          set_cmd (SelectedOption_Value act) details
        else if bool_decide (id = verbsDropdownCommand) then
          set_verb (SelectedOption_Value act) details
        else if bool_decide (id = resourceNamesDropdownCommand) then
          set_resourceName (SelectedOption_Value act) details
        else if bool_decide (id = resourceNamespaceDropdownCommand) then
          set_namespace (SelectedOption_Value act) details
        else if bool_decide (id = filterPlaintextInputCommand) then
          set_filter (BlockAction_Value act) details
        else details in
      extractBlock rest details
  end.

(** The outer loop of [extractStateDetails] over the blocks. *)
Fixpoint extractValues (values : list (string * list (string * BlockAction)))
  (details : stateDetails) : stateDetails :=
  match values with
  | [] => details
  | (blockID, blocks) :: rest =>
      let details :=
        if negb (strings.Contains blockID filterPlaintextInputCommand)
        then set_dropdownsBlockID blockID details
        else details in
      extractValues rest (extractBlock blocks details)
  end.

Definition extractStateDetails (state : option BlockActionStates)
  : stateDetails :=
  match state with
  | None => zeroStateDetails
  | Some state' => extractValues (Values state') zeroStateDetails
  end.

Definition executorFunc : Type := unit -> Logged (api.Message * option error).

(** [SelectAndRun] on an [executorsRunner], a map from command to
    executor. *)
Definition SelectAndRun (cmds : gmap string executorFunc) (cmd : string)
  : Logged (api.Message * option error) :=
  let cmd := strings.ToLower cmd in
  match cmds !! cmd with
  | None => ret (api.zeroMessage, Some errUnsupportedCommand)
  | Some fn => fn tt
  end.

(** The executors that [Handle] registers. *)
Definition executors (p : Parts) (rt : Runtime) (e : Kbcli)
  (details : stateDetails) (allCmds allVerbs : list string)
  : gmap string executorFunc :=
  list_to_map
    [ (cmdsDropdownCommand,
       fun _ => renderMessage p rt e details allCmds allVerbs);
      (verbsDropdownCommand,
       fun _ =>
         (* the resource type was selected, so clear resource name from
            command preview *)
         let details := set_resourceName EmptyString details in
         (logf InfoLevel [] "Selecting resource type" ;;;
          renderMessage p rt e details allCmds allVerbs)%logged);
      (resourceNamesDropdownCommand,
       fun _ => renderMessage p rt e details allCmds allVerbs);
      (resourceNamespaceDropdownCommand,
       fun _ =>
         (* the namespace was changed: clear resource name from command
            preview *)
         let details := set_resourceName EmptyString details in
         renderMessage p rt e details allCmds allVerbs);
      (filterPlaintextInputCommand,
       fun _ => renderMessage p rt e details allCmds allVerbs) ].

(** The text of the message for a command that is not supported. *)
Definition notSupportedText (cmd : string) : string :=
  ":exclamation: Unfortunately, interactive command builder doesn't support "
  +:+ strings.Quote cmd +:+ " command yet.".

(** [Handle] constructs the interactive command builder messages. *)
Definition Handle (p : Parts) (rt : Runtime) (e : Kbcli) (cmd : string)
  (isInteractivitySupported : bool) (state : option BlockActionStates)
  : Logged (api.Message * option error) :=
  let empty := api.zeroMessage in
  if negb isInteractivitySupported then
    (logf DebugLevel []
       "Interactive kbcli command builder is not supported. Requesting a full kbcli command." ;;;
     ret (message kbcliMissingCommandMsg))%logged
  else
    let allCmds := Cmds (Allowed (cfg e)) in
    let allVerbs := Verbs (Allowed (cfg e)) in
    let allCmds := FilterSupportedCmds (commandGuard e) allCmds in
    if (length allCmds =? 0)%nat then
      let msg :=
        "Unfortunately non of configured " +:+
        strings.Quote (strings.Join (Verbs (Allowed (cfg e))) ",") +:+
        " verbs are supported by interactive command builder." in
      ret (message msg)
    else
      let args := strings.Fields cmd in
      match args with
      | args0 :: args1 :: _ =>
          let cmd := args0 +:+ " " +:+ args1 in
          let details := extractStateDetails state in
          let details :=
            if bool_decide (namespace details = EmptyString)
            then set_namespace (defaultNamespace e) details
            else details in
          (logf DebugLevel
             [ ("namespace", namespace details);
               ("resourceName", resourceName details);
               ("verb", verb details);
               ("cmd", builder.cmd details) ]
             "Extracted Slack state" ;;;
           let cmds := executors p rt e details allCmds allVerbs in
           r <- SelectAndRun cmds cmd ;;
           let (msg, err) := r : api.Message * option error in
           match err with
           | None => ret (msg, None)
           | Some err' =>
               if bool_decide (err' = ErrCmdNotSupported) then
                 ret (errMessage p rt allCmds
                        (notSupportedText (builder.cmd details)))
               else
                 logf ErrorLevel [("error", Error err')]
                   "Cannot render the kbcli command builder." ;;;
                 ret (empty, Some err')
           end)%logged
      | _ =>
          (* the initial command builder message: there is no builder
             params *)
          ret (initialMessage p rt allCmds)
      end.

(** ** The menu helpers as the design document describes them *)

(** Modelled from the spec: [selectDropdown], the menu assembler behind
    [CmdSelect], [VerbSelect], [ResourceNamesSelect] and
    [ResourceNamespaceSelect], is not part of the sources at hand.  It
    builds a menu from an ordered sequence of label/value pairs and an
    optional initially selected option, and returns no menu when the
    sequence is empty. *)
Definition selectDropdown (name command : string) (items : list dropdownItem)
  (initial : option dropdownItem) : option api.Select :=
  let toOption (i : dropdownItem) := api.mkOptionItem (Name i) (Value i) in
  match items with
  | [] => None
  | _ =>
      Some (api.mkSelect api.StaticSelect name command
              [api.mkOptionGroup name (map toOption items)]
              (option_map toOption initial))
  end.

(** Modelled from the spec: a menu over plain names (the label is the
    value); the initially selected option is the name equal to
    [initialItem] when the sequence has one, and absent otherwise. *)
Definition selectOfNames (name command : string) (items : list string)
  (initialItem : string) : option api.Select :=
  selectDropdown name command
    (map (fun s => newDropdownItem s s) items)
    (option_map (fun s => newDropdownItem s s)
       (List.find (fun s => bool_decide (s = initialItem)) items)).

(** Modelled from the spec: the explicit empty resource-name menu, a
    menu that is present and has neither options nor a selection. *)
Definition specEmptyResourceNameDropdown : option api.Select :=
  Some (api.mkSelect api.ExternalSelect "No resources found" EmptyString
          [] None).

(** Modelled from the spec: [KbcliCmdBuilderMessage] is not part of the
    sources at hand.  The render result is the root menu, the extra
    menus that are present and the extra sections, in one group of
    menus identified by [dropdownsBlockID], replacing the previous
    interactive message and visible to the user only. *)
Fixpoint extraSelects (opts : list KbcliCmdBuilderOption) : list api.Select :=
  match opts with
  | [] => []
  | WithAdditionalSelects in_ :: rest => omap id in_ ++ extraSelects rest
  | WithAdditionalSections _ :: rest => extraSelects rest
  end.

Fixpoint extraSections (opts : list KbcliCmdBuilderOption) : list api.Section :=
  match opts with
  | [] => []
  | WithAdditionalSelects _ :: rest => extraSections rest
  | WithAdditionalSections in_ :: rest => in_ ++ extraSections rest
  end.

Definition specKbcliCmdBuilderMessage (dropdownsBlockID : string)
  (root : api.Select) (opts : list KbcliCmdBuilderOption) : api.Message :=
  api.mkMessage api.zeroBody
    (api.mkSection api.zeroBase
       (api.mkSelects dropdownsBlockID (root :: extraSelects opts)) []
     :: extraSections opts)
    true true.

(** Modelled from the spec: the preview text blocks of a render result:
    the free-text filter input and the command line. *)
Definition specFilterSection : api.Section :=
  api.mkSection api.zeroBase api.zeroSelects
    [api.mkLabelInput filterPlaintextInputCommand "Filter output"
       "(Optional) Type to filter command output by."].

Definition specPreviewSection (cmd : string) (filterSection : api.Section)
  : list api.Section :=
  [ filterSection;
    api.mkSection (api.mkBase EmptyString (api.mkBody cmd EmptyString))
      api.zeroSelects [] ].

Definition specInternalErrorSection : api.Section :=
  api.mkSection
    (api.mkBase EmptyString
       (api.mkBody EmptyString "Sorry, an internal error occurred."))
    api.zeroSelects [].

(** Modelled from the spec: [getNonEmptyLines] is not part of the
    sources at hand; the output is split into its non-empty lines.
    [cur] is the line being read, in reverse. *)
Fixpoint lines_go (cur : list ascii) (s : string) : list string :=
  let flush (cur : list ascii) :=
    match cur with
    | [] => []
    | _ => [string_of_list_ascii (rev cur)]
    end in
  match s with
  | EmptyString => flush cur
  | String c s' =>
      if bool_decide (nat_of_ascii c = 10) then flush cur ++ lines_go [] s'
      else lines_go (c :: cur) s'
  end.

Definition specGetNonEmptyLines (out : string) : list string := lines_go [] out.

(** Modelled from the spec: the text of the truncation notice tells how
    many more items there are. *)
Definition truncationNotice (hidden : nat) : string :=
  "... and " +:+ NilZero.string_of_uint (Nat.to_uint hidden) +:+ " more".

(** Modelled from the spec: [overflowSentence] is not part of the
    sources at hand.  A list longer than the cap of [dropdownItemsLimit]
    options is cut to the cap's worth of names, followed by one
    synthetic option that tells how many items are not shown. *)
Definition specOverflowSentence (in_ : list string) : list string :=
  if (dropdownItemsLimit <? length in_)%nat
  then firstn dropdownItemsLimit in_
       ++ [truncationNotice (length in_ - dropdownItemsLimit)]
  else in_.

(** The helpers of the design document, together. *)
Definition specParts : Parts :=
  mkParts
    (selectOfNames "Select command" cmdsDropdownCommand)
    (selectOfNames "Select verb" verbsDropdownCommand)
    (selectOfNames "Select resource name" resourceNamesDropdownCommand)
    (fun allNs initial =>
       selectDropdown "Select namespace" resourceNamespaceDropdownCommand
         allNs (Some initial))
    specEmptyResourceNameDropdown
    specKbcliCmdBuilderMessage
    specPreviewSection
    specFilterSection
    specInternalErrorSection
    specOverflowSentence
    specGetNonEmptyLines.

(** ** Notions used in the statements *)

(** The answers that a render pass of [details] reads from its
    collaborators are the same in two worlds: the configuration and the
    default namespace, the answers of the guard for the command, the
    kubeconfig path, the answer of the runner to the one command line
    that lists the resource names, and the answer of the namespace
    lister. *)
Definition sameResponses (rt1 : Runtime) (e1 : Kbcli) (rt2 : Runtime)
  (e2 : Kbcli) (details : stateDetails) (allVerbs : list string) : Prop :=
  cfg e1 = cfg e2
  ∧ defaultNamespace e1 = defaultNamespace e2
  ∧ GetAllowedVerbsForCmd (commandGuard e1) (cmd details) allVerbs
    = GetAllowedVerbsForCmd (commandGuard e2) (cmd details) allVerbs
  ∧ GetResourceDetails (commandGuard e1) (cmd details)
    = GetResourceDetails (commandGuard e2) (cmd details)
  ∧ GetResourceTypeForCmd (commandGuard e1) (cmd details)
    = GetResourceTypeForCmd (commandGuard e2) (cmd details)
  ∧ Getenv rt1 "KUBECONFIG" = Getenv rt2 "KUBECONFIG"
  ∧ RunKubectlCommand (kcRunner e1) (Getenv rt1 "KUBECONFIG")
      (defaultNamespace e1)
      (getNamesCmd (GetResourceTypeForCmd (commandGuard e1) (cmd details))
         (namespace details))
    = RunKubectlCommand (kcRunner e2) (Getenv rt2 "KUBECONFIG")
        (defaultNamespace e2)
        (getNamesCmd (GetResourceTypeForCmd (commandGuard e2) (cmd details))
           (namespace details))
  ∧ List_ (namespaceLister e1) dropdownItemsLimit
    = List_ (namespaceLister e2) dropdownItemsLimit.

(** A resource instance name, the name of a Kubernetes object, has no
    space in it. *)
Definition isInstanceName (s : string) : bool :=
  negb (strings.Contains s " ").

End builder.

(* ===================================================================== *)
(** * Collaborators for the examples *)
(* ===================================================================== *)

Module examples.

Import builder.

(** A process whose kubeconfig is at a fixed path and whose next UUID
    is known. *)
Definition runtime : Runtime :=
  mkRuntime (fun _ => "/etc/kube/config") ("6ba7b810-9dad", None).

(** A runner that lists two clusters, [pg] and [redis], one per line. *)
Definition runner : KubectlRunner :=
  mkKubectlRunner
    (fun _ _ _ => ("pg" +:+ String (ascii_of_nat 10) ("redis" +:+
                     String (ascii_of_nat 10) EmptyString), None)).

(** A runner that fails. *)
Definition failingRunner : KubectlRunner :=
  mkKubectlRunner (fun _ _ _ => (EmptyString, Some (foreignError "exit status 1"))).

Definition lister : NamespaceLister :=
  mkNamespaceLister (fun _ => (["default"; "kube-system"], None)).

(** The builder with the default configuration, the guard of package
    [command] and the default namespace [default]. *)
Definition kbcli : Kbcli :=
  NewKbcli runner DefaultConfig commandGuardOf "default" lister.

Definition failingKbcli : Kbcli :=
  NewKbcli failingRunner DefaultConfig commandGuardOf "default" lister.

(** The supported commands of the default configuration. *)
Definition allCmds : list string :=
  command.FilterSupportedCmds (Cmds (Allowed DefaultConfig)).

Definition allVerbs : list string := Verbs (Allowed DefaultConfig).

(** 101 names, [c0] to [c100]. *)
Definition manyNames : list string :=
  map (fun n => "c" +:+ NilZero.string_of_uint (Nat.to_uint n)) (seq 0 101).

(** Another world: a runner that gives the same list of clusters when
    asked for the clusters and something else for any other command
    line, a random source with another UUID, and a lister that answers
    differently for other limits. *)
Definition otherRuntime : Runtime :=
  mkRuntime (fun name => if bool_decide (name = "KUBECONFIG")
                         then "/etc/kube/config" else "other")
    ("0e37df36-f698", None).

Definition otherRunner : KubectlRunner :=
  mkKubectlRunner
    (fun kubeconfig ns cmdline =>
       if strings.HasPrefix cmdline "get cluster "
       then RunKubectlCommand runner kubeconfig ns cmdline
       else ("unexpected", None)).

Definition otherLister : NamespaceLister :=
  mkNamespaceLister
    (fun limit => if (limit =? 100)%nat
                  then (["default"; "kube-system"], None)
                  else ([], Some (foreignError "limit"))).

Definition otherKbcli : Kbcli :=
  NewKbcli otherRunner DefaultConfig commandGuardOf "default" otherLister.

(** The state of the menus right after the command menu is changed from
    [cluster] to [clusterdefinition]: the other menus still hold what was
    selected for [cluster]. *)
Definition changedCommandState : BlockActionStates :=
  mkBlockActionStates
    [ ("b1",
       [ ("kbcli @builder --cmds",
          mkBlockAction "clusterdefinition" EmptyString);
         ("kbcli @builder --verbs", mkBlockAction "list" EmptyString);
         ("kbcli @builder --resource-name", mkBlockAction "pg" EmptyString);
         ("kbcli @builder --namespace", mkBlockAction "default" EmptyString) ]) ].

End examples.

(* ===================================================================== *)
(** * Package [kbcli]: the binary runner ([runner.go]) *)
(* ===================================================================== *)

Module runner.

Definition kcBinaryName : string := "kubectl".
Definition kbBinaryName : string := "kbcli".

(** The line feed. *)
Definition LF : string := String (ascii_of_nat 10) EmptyString.

(** [strings.EqualFold] on the ASCII range. *)
Definition EqualFold (s t : string) : bool :=
  bool_decide (strings.ToLower s = strings.ToLower t).

(** What [runner.go] takes from libraries and from files of the package
    that are not at hand:
    - [pflagParse args] is what [isNamespaceFlagSet] reads after
      [f.Parse(args)] on its flag set: the value of [--namespace]/[-n],
      the value of [--all-namespaces]/[-A], and the error of [Parse];
    - [ClearCode] is [color.ClearCode] of gookit;
    - [optionsCommandOutput] is the text that [heredoc.Doc] makes of the
      literal in [help.go];
    - [detectNotSupportedCommands] and [detectNotSupportedGlobalFlags]
      are declared in another file of the package. *)
Record Libs : Type := mkLibs {
  pflagParse : list string -> (string * bool) * option error;
  ClearCode : string -> string;
  optionsCommandOutput : string;
  detectNotSupportedCommands : string -> option error;
  detectNotSupportedGlobalFlags : string -> option error
}.

(** [BinaryRunner] runs a binary: its one field executes a raw command
    line with environment variables. *)
Record BinaryRunner : Type := mkBinaryRunner {
  executeCommandWithEnvs : string -> gmap string string -> string * option error
}.

(** A computation that may execute command lines: its result and the
    executions it made, each with its command line and environment, in
    order. *)
Definition Executing (A : Type) : Type := A * list (string * gmap string string).

(** [isNamespaceFlagSet]: true if [-A], [--all-namespaces] or a
    non-empty [--namespace]/[-n] was found. *)
Definition isNamespaceFlagSet (libs : Libs) (cmd : string)
  : bool * option error :=
  let '(isNs, isAllNs, err) := pflagParse libs (strings.Fields cmd) in
  match err with
  | Some err' => (false, Some err')
  | None => (isAllNs || negb (bool_decide (isNs = EmptyString)), None)
  end.

(** The common tail of [RunKubectlCommand] and [RunKbcliCommand], which
    the two functions spell out each for its own binary. *)
Definition runBinary (binaryName : string) (libs : Libs) (r : BinaryRunner)
  (kubeConfigPath defaultNamespace cmd : string)
  : Executing (string * option error) :=
  if EqualFold cmd "options" then
    ((optionsCommandOutput libs, None), [])
  else
    let (isNs, err) := isNamespaceFlagSet libs cmd in
    match err with
    | Some err' => ((EmptyString, Some err'), [])
    | None =>
        let cmd :=
          if negb isNs
          then "-n " +:+ defaultNamespace +:+ " " +:+ cmd
          else cmd in
        let envs : gmap string string := {[ "KUBECONFIG" := kubeConfigPath ]} in
        let runCmd := binaryName +:+ " " +:+ cmd in
        let (out, err) := executeCommandWithEnvs r runCmd envs in
        match err with
        | Some err' =>
            ((EmptyString, Some (foreignError (out +:+ LF +:+ Error err'))),
             [(runCmd, envs)])
        | None => ((ClearCode libs out, None), [(runCmd, envs)])
        end
    end.

(** [RunKubectlCommand] runs a command with the [kubectl] binary. *)
Definition RunKubectlCommand (libs : Libs) (r : BinaryRunner)
  (kubeConfigPath defaultNamespace cmd : string)
  : Executing (string * option error) :=
  runBinary kcBinaryName libs r kubeConfigPath defaultNamespace cmd.

(** [RunKbcliCommand] runs a command with the [kbcli] binary, after the
    checks for commands and global flags that are not supported. *)
Definition RunKbcliCommand (libs : Libs) (r : BinaryRunner)
  (kubeConfigPath defaultNamespace cmd : string)
  : Executing (string * option error) :=
  match detectNotSupportedCommands libs cmd with
  | Some err => ((EmptyString, Some err), [])
  | None =>
      match detectNotSupportedGlobalFlags libs cmd with
      | Some err => ((EmptyString, Some err), [])
      | None => runBinary kbBinaryName libs r kubeConfigPath defaultNamespace cmd
      end
  end.

End runner.

(* ===================================================================== *)
(** * Notions used in the statements about the rest of the code *)
(* ===================================================================== *)

Module statements.

Import builder.

Global Instance Level_eq_dec : EqDecision Level.
Proof. solve_decision. Defined.

(** The entries of a log that were written at a level. *)
Definition entriesAt (lvl : Level) (log : list LogEntry) : list LogEntry :=
  base.filter (λ entry, entryLevel entry = lvl) log.

(** The logical field that a widget identifier names: the identifier
    without the prefix [kbcli] and the white space around. *)
Definition fieldKey (id : string) : string :=
  strings.TrimSpace (strings.TrimPrefix id kbcliCommandName).

(** All the actions of a state, in the order in which the extractor
    visits them. *)
Definition allActions (values : list (string * list (string * BlockAction)))
  : list (string * BlockAction) :=
  flat_map snd values.

(** What the last action for the field [key] holds, read with [proj],
    and [d] when no action is for that field. *)
Definition lastFor (key : string) (proj : BlockAction → string)
  (actions : list (string * BlockAction)) (d : string) : string :=
  from_option (proj ∘ snd) d (last (base.filter (λ a, fieldKey a.1 = key) actions)).

(** The last block identifier that is not the one of the filter input,
    and [d] when there is none. *)
Definition lastMenuGroup (values : list (string * list (string * BlockAction)))
  (d : string) : string :=
  default d
    (last (base.filter (λ blockID,
                     strings.Contains blockID filterPlaintextInputCommand = false)
             (map fst values))).

(** The state that [Handle] renders for a dispatcher key: the extracted
    state, with the default namespace where none is selected, and
    without the resource name for the keys of the verb menu and of the
    namespace menu. *)
Definition preparedState (e : Kbcli) (state : option BlockActionStates)
  (key : string) : stateDetails :=
  let details := extractStateDetails state in
  let details :=
    if bool_decide (namespace details = EmptyString)
    then set_namespace (defaultNamespace e) details
    else details in
  if bool_decide (key = verbsDropdownCommand
                  ∨ key = resourceNamespaceDropdownCommand)
  then set_resourceName EmptyString details
  else details.

(** The five keys of the dispatcher. *)
Definition dispatcherKeys : list string :=
  [ cmdsDropdownCommand; verbsDropdownCommand; resourceNamesDropdownCommand;
    resourceNamespaceDropdownCommand; filterPlaintextInputCommand ].

(** What one call of a runner may have executed, given the binary, the
    kubeconfig path, the default namespace and the command: nothing,
    when the call was rejected, the command is [options] in some letter
    case, or its flags do not parse; or one line, the binary followed
    by the command, with [-n] and the default namespace in front of the
    command when no namespace flag was found in it, with the one
    environment variable [KUBECONFIG]. *)
Definition executedAs (libs : runner.Libs)
  (binaryName kubeConfigPath defaultNamespace cmd : string) (rejected : Prop)
  (executions : list (string * gmap string string)) : Prop :=
  match executions with
  | [] =>
      rejected ∨ runner.EqualFold cmd "options" = true
      ∨ snd (runner.isNamespaceFlagSet libs cmd) ≠ None
  | [(line, envs)] =>
      ¬ rejected
      ∧ runner.EqualFold cmd "options" = false
      ∧ envs = {[ "KUBECONFIG" := kubeConfigPath ]}
      ∧ ∃ isNs, runner.isNamespaceFlagSet libs cmd = (isNs, None)
                ∧ line = binaryName +:+ " "
                         +:+ (if isNs then cmd
                              else "-n " +:+ defaultNamespace +:+ " " +:+ cmd)
  | _ => False
  end.

End statements.

(* ===================================================================== *)
(** * More collaborators for the examples *)
(* ===================================================================== *)

Module moreExamples.

Import builder.

(** What discovery lists: [pods] and [nodes] twice, in the core group
    and in the metrics group, and [deployments]. *)
Definition discovered : list command.APIResourceList :=
  [ command.mkAPIResourceList "v1"
      [ command.mkAPIResource "pods" true EmptyString "Pod";
        command.mkAPIResource "nodes" false EmptyString "Node" ];
    command.mkAPIResourceList "metrics.k8s.io/v1beta1"
      [ command.mkAPIResource "pods" true "metrics.k8s.io" "PodMetrics";
        command.mkAPIResource "nodes" false "metrics.k8s.io" "NodeMetrics" ];
    command.mkAPIResourceList "apps/v1"
      [ command.mkAPIResource "deployments" true "apps" "Deployment" ] ].

(** A discovery error for one group with an empty response. *)
Definition emptyGroup : error :=
  ErrGroupDiscoveryFailed
    [("custom.io/v1", "Got empty response for: custom.io/v1")].

Definition guard : command.CommandGuard :=
  command.NewCommandGuard (command.mkDiscovery (discovered, Some emptyGroup)).

(** A state of the menus: the command [cluster], the verb [list] and the
    namespace [prod] in the block [b1], the filter text [abc] in the
    block of the filter input. *)
Definition selection : BlockActionStates :=
  mkBlockActionStates
    [ ("b1",
       [ ("kbcli @builder --cmds", mkBlockAction "cluster" EmptyString);
         ("kbcli @builder --verbs", mkBlockAction "list" EmptyString);
         ("kbcli @builder --namespace", mkBlockAction "prod" EmptyString) ]);
      ("@builder --filter-query",
       [ ("kbcli @builder --filter-query", mkBlockAction EmptyString "abc") ]) ].

(** The same state, with blocks and actions visited in the opposite
    order. *)
Definition selectionReversed : BlockActionStates :=
  mkBlockActionStates
    [ ("@builder --filter-query",
       [ ("kbcli @builder --filter-query", mkBlockAction EmptyString "abc") ]);
      ("b1",
       [ ("kbcli @builder --namespace", mkBlockAction "prod" EmptyString);
         ("kbcli @builder --verbs", mkBlockAction "list" EmptyString);
         ("kbcli @builder --cmds", mkBlockAction "cluster" EmptyString) ]) ].

(** Libraries for the examples of the runner: a flag parser that finds
    the namespace flags only as tokens of their own, a colour filter
    that changes nothing, a short options text, a check that rejects
    the command [playground], and a binary that echoes its command
    line. *)
Definition libs : runner.Libs :=
  runner.mkLibs
    (fun args =>
       ((if bool_decide ("-n" ∈ args) then "set" else EmptyString,
         bool_decide ("-A" ∈ args)), None))
    (fun out => out)
    "The following options can be passed to any command:"
    (fun cmd => if strings.HasPrefix cmd "playground"
                then Some (foreignError "not supported") else None)
    (fun _ => None).

Definition echo : runner.BinaryRunner :=
  runner.mkBinaryRunner (fun line _ => ("ran " +:+ line, None)).

End moreExamples.

(* ===================================================================== *)
(** * Properties *)
(* ===================================================================== *)

(** ** The writer *)

Lemma bind_ret_l {A B} (a : A) (f : A -> Logged B) : bind (ret a) f = f a.
Proof. unfold bind, ret. destruct (f a) as [b l]. reflexivity. Qed.

Lemma bind_fst {A B} (m : Logged A) (f : A -> Logged B) :
  fst (bind m f) = fst (f (fst m)).
Proof. unfold bind. destruct m as [a l1]. simpl. destruct (f a). reflexivity. Qed.

Lemma bind_snd {A B} (m : Logged A) (f : A -> Logged B) :
  snd (bind m f) = snd m ++ snd (f (fst m)).
Proof. unfold bind. destruct m as [a l1]. simpl. destruct (f a). reflexivity. Qed.

(** ** The command guard *)

Section CommandGuardFacts.

Import command.

Lemma slices_Filter_app (d s : list string) (keep : string -> bool) :
  slices_Filter d s keep = d ++ List.filter keep s.
Proof.
  revert d. induction s as [|x s IH]; intros d; simpl.
  - by rewrite app_nil_r.
  - rewrite IH. destruct (keep x); [|done]. by rewrite <- app_assoc.
Qed.

Lemma unsupported_iff (s : string) :
  s ∈ unsupportedGlobalCmds ↔ s = "playground" ∨ s = "bench".
Proof. unfold unsupportedGlobalCmds. set_solver. Qed.

Lemma FilterSupportedCmds_filter (candidates : list string) :
  FilterSupportedCmds candidates
  = filter (λ s, s ∉ unsupportedGlobalCmds) candidates.
Proof.
  unfold FilterSupportedCmds. rewrite slices_Filter_app. simpl.
  induction candidates as [|x l IH]; [done|].
  simpl. rewrite filter_cons. rewrite IH.
  destruct (decide (x ∉ unsupportedGlobalCmds)) as [Hx|Hx].
  - rewrite bool_decide_eq_false_2; done.
  - rewrite bool_decide_eq_true_2; [done|]. by apply dec_stable.
Qed.

(** C8. For every list of candidate commands, [FilterSupportedCmds]
    returns exactly the members that are not on the interactive-mode
    denylist ([playground], [bench]), in the same relative order as the
    input: the result is the input filtered by the denylist, a command
    is in the result exactly when it is a candidate off the denylist,
    and the result is a subsequence of the input. *)
Theorem FilterSupportedCmds_denylist (candidates : list string) :
  FilterSupportedCmds candidates
  = filter (λ s, s ≠ "playground" ∧ s ≠ "bench") candidates
  ∧ (∀ s, s ∈ FilterSupportedCmds candidates
          ↔ s ∈ candidates ∧ s ≠ "playground" ∧ s ≠ "bench")
  ∧ sublist (FilterSupportedCmds candidates) candidates.
Proof.
  assert (Hf : FilterSupportedCmds candidates
               = filter (λ s, s ≠ "playground" ∧ s ≠ "bench") candidates).
  { rewrite FilterSupportedCmds_filter. apply list_filter_iff.
    intros s. rewrite unsupported_iff. tauto. }
  split; [exact Hf|]. split.
  - intros s. rewrite Hf, list_elem_of_filter. tauto.
  - rewrite Hf. apply sublist_filter.
Qed.

(** C10. The result of [GetAllowedVerbsForCmd] does not depend on its
    parameter [verbs]: for every command and any two lists of configured
    verbs the result is the same, namely the entry of the static verb
    table for the command, or [nil] without an error for a command that
    the table does not have.  So the configured allow-list never narrows
    the verb menu: with the single verb [list] of the default
    configuration the command [cluster] still gets its 33 verbs, and the
    verb menu that the builder makes is the same for any two lists. *)
Theorem GetAllowedVerbsForCmd_ignores_verbs (cmd : string)
  (verbs1 verbs2 : list string) :
  GetAllowedVerbsForCmd cmd verbs1 = GetAllowedVerbsForCmd cmd verbs2
  ∧ GetAllowedVerbsForCmd cmd verbs1 = (default [] (cmdVerbs !! cmd), None)
  ∧ length (fst (GetAllowedVerbsForCmd "cluster"
                   (builder.Verbs (builder.Allowed builder.DefaultConfig)))) = 33
  ∧ "delete" ∈ fst (GetAllowedVerbsForCmd "cluster"
                      (builder.Verbs (builder.Allowed builder.DefaultConfig)))
  ∧ ∀ p kc cfg ns lister verb,
      let e := builder.NewKbcli kc cfg builder.commandGuardOf ns lister in
      builder.getAllowedVerbsSelectList p e cmd verbs1 verb
      = builder.getAllowedVerbsSelectList p e cmd verbs2 verb.
Proof.
  split; [reflexivity|]. split.
  { unfold GetAllowedVerbsForCmd. by destruct (cmdVerbs !! cmd). }
  split; [by vm_compute|]. split.
  { apply list_elem_of_In. vm_compute. tauto. }
  intros. reflexivity.
Qed.

Lemma allEmptyResponses_Forall (groups : list (string * string)) :
  allEmptyResponses groups = true
  ↔ Forall (λ kv, strings.Contains kv.2 "Got empty response for" = true) groups.
Proof.
  induction groups as [|[gv msg] rest IH]; simpl.
  - split; [constructor|done].
  - destruct (strings.Contains msg "Got empty response for") eqn:Hc.
    + rewrite IH. split; [by constructor|by inversion 1].
    + split; [done|]. inversion 1; simpl in *; congruence.
Qed.

Lemma shouldIgnore_iff (err : error) :
  shouldIgnoreResourceListError err = true
  ↔ ∃ groups, err = ErrGroupDiscoveryFailed groups
      ∧ Forall (λ kv, strings.Contains kv.2 "Got empty response for" = true)
          groups.
Proof.
  destruct err; simpl;
    try (split; [done | intros (? & ? & ?); congruence]).
  rewrite allEmptyResponses_Forall. split.
  - intros H. eauto.
  - intros (g & Hg & HF). by simplify_eq.
Qed.

Lemma addResources_lookup (gv : string) (resources : list APIResource)
  (m : gmap string APIResource) (name : string) :
  fst (addResources gv resources m) !! name
  = match m !! name with
    | Some res => Some res
    | None => firstNamed name resources
    end.
Proof.
  revert m. induction resources as [|res rest IH]; intros m; simpl.
  - by destruct (m !! name).
  - destruct (m !! apiName res) eqn:Hres.
    + rewrite bind_fst. simpl. rewrite IH.
      destruct (m !! name) eqn:Hn; [done|].
      unfold firstNamed. simpl.
      rewrite bool_decide_eq_false_2; [done|]. congruence.
    + rewrite IH. unfold firstNamed. simpl.
      destruct (decide (apiName res = name)) as [Heq|Hne].
      * subst name. rewrite lookup_insert_eq, Hres.
        by rewrite bool_decide_eq_true_2.
      * rewrite lookup_insert_ne by done.
        by rewrite bool_decide_eq_false_2.
Qed.

Lemma firstNamed_app (name : string) (l1 l2 : list APIResource) :
  firstNamed name (l1 ++ l2)
  = match firstNamed name l1 with
    | Some res => Some res
    | None => firstNamed name l2
    end.
Proof.
  unfold firstNamed. induction l1 as [|x l1 IH]; simpl; [done|].
  by destruct (bool_decide (apiName x = name)).
Qed.

Lemma addLists_lookup (resList : list APIResourceList)
  (m : gmap string APIResource) (name : string) :
  fst (addLists resList m) !! name
  = match m !! name with
    | Some res => Some res
    | None => firstNamed name (flat_map APIResources resList)
    end.
Proof.
  revert m. induction resList as [|item rest IH]; intros m; simpl.
  - by destruct (m !! name).
  - rewrite bind_fst, IH, addResources_lookup, firstNamed_app.
    destruct (m !! name); [done|].
    by destruct (firstNamed name (APIResources item)).
Qed.

(** C3. When discovery answers with an error, [GetServerResourceMap]
    succeeds if and only if the error is a group discovery failure whose
    per-group errors all say that the response was empty; any other
    per-group error, and any error of another kind, is fatal and comes
    back wrapped.  In a successful build (with a tolerated error or
    with none) the map has, for every resource name, the first
    descriptor of that name in the order of the lists: later
    descriptors of the name are dropped. *)
Theorem GetServerResourceMap_tolerance (resList : list APIResourceList)
  (err : error) :
  let r := fst (GetServerResourceMap
                  (NewCommandGuard (mkDiscovery (resList, Some err)))) in
  let r0 := fst (GetServerResourceMap
                   (NewCommandGuard (mkDiscovery (resList, None)))) in
  (snd r = None
   ↔ ∃ groups, err = ErrGroupDiscoveryFailed groups
       ∧ Forall (λ kv, strings.Contains kv.2 "Got empty response for" = true)
           groups)
  ∧ (if shouldIgnoreResourceListError err
     then snd r = None
          ∧ ∀ name, fst r !! name
                    = firstNamed name (flat_map APIResources resList)
     else r = (∅, Some (Errorf_w "while getting resource list from K8s cluster"
                          err)))
  ∧ snd r0 = None
  ∧ ∀ name, fst r0 !! name = firstNamed name (flat_map APIResources resList).
Proof.
  intros r r0. subst r r0. unfold GetServerResourceMap. simpl.
  rewrite <- shouldIgnore_iff.
  destruct (shouldIgnoreResourceListError err) eqn:Hig; simpl.
  - rewrite !bind_fst. simpl.
    split; [done|]. split; [|split; [done|]].
    + split; [done|]. intros name.
      rewrite addLists_lookup. by rewrite lookup_empty.
    + intros name. rewrite addLists_lookup. by rewrite lookup_empty.
  - rewrite !bind_fst. simpl.
    split; [done|]. split; [done|]. split; [done|].
    intros name. rewrite addLists_lookup. by rewrite lookup_empty.
Qed.

End CommandGuardFacts.

(** ** The dispatcher *)

Section HandleFacts.

Import builder.

Variable p : Parts.
Variable rt : Runtime.
Variable e : Kbcli.

(** The five keys under which [Handle] registers an executor. *)
Lemma executors_lookup_None (details : stateDetails)
  (allCmds allVerbs : list string) (key : string) :
  key ∉ [ cmdsDropdownCommand; verbsDropdownCommand;
          resourceNamesDropdownCommand; resourceNamespaceDropdownCommand;
          filterPlaintextInputCommand ] →
  executors p rt e details allCmds allVerbs !! key = None.
Proof.
  intros Hkey. unfold executors. simpl.
  repeat (rewrite lookup_insert_ne; [|intros <-; apply Hkey; set_solver]).
  apply lookup_empty.
Qed.

(** C1, as the code has it. For every inbound event of ASCII text
    (interactivity supported, at least one supported command
    configured) whose first two tokens, in lower case, are none of the
    five keys under which an executor is registered, [Handle] runs no
    executor: its whole answer is the empty message, the error
    [errUnsupportedCommand] and two log entries, the extracted state and
    the failure, none of which comes from an executor or from a
    collaborator.  The error is not the error
    [command.ErrCmdNotSupported] that [Handle] turns into a message. *)
Theorem Handle_unmatched_key (cmd : string) (state : option BlockActionStates)
  (args0 args1 : string) (rest : list string) :
  strings.isASCII cmd = true →
  FilterSupportedCmds (commandGuard e) (Cmds (Allowed (cfg e))) ≠ [] →
  strings.Fields cmd = args0 :: args1 :: rest →
  strings.ToLower (args0 +:+ " " +:+ args1)
    ∉ [ cmdsDropdownCommand; verbsDropdownCommand;
        resourceNamesDropdownCommand; resourceNamespaceDropdownCommand;
        filterPlaintextInputCommand ] →
  let extracted := extractStateDetails state in
  let details :=
    if bool_decide (namespace extracted = EmptyString)
    then set_namespace (defaultNamespace e) extracted
    else extracted in
  Handle p rt e cmd true state
  = ((api.zeroMessage, Some errUnsupportedCommand),
     [ mkLogEntry DebugLevel "Extracted Slack state"
         [ ("namespace", namespace details);
           ("resourceName", resourceName details);
           ("verb", verb details);
           ("cmd", builder.cmd details) ];
       mkLogEntry ErrorLevel "Cannot render the kbcli command builder."
         [("error", "unsupported command")] ])
  ∧ executors p rt e details
      (FilterSupportedCmds (commandGuard e) (Cmds (Allowed (cfg e))))
      (Verbs (Allowed (cfg e)))
    !! strings.ToLower (args0 +:+ " " +:+ args1) = None
  ∧ errUnsupportedCommand ≠ ErrCmdNotSupported.
Proof.
  intros _ Hcmds Hfields Hkey extracted details.
  split; [|split; [by apply executors_lookup_None|done]].
  unfold Handle. simpl negb. cbv iota.
  destruct (FilterSupportedCmds (commandGuard e) (Cmds (Allowed (cfg e))))
    as [|c0 cs] eqn:Hall; [done|].
  simpl length. simpl Nat.eqb. cbv iota.
  rewrite Hfields. fold extracted. fold details.
  unfold SelectAndRun. rewrite executors_lookup_None by exact Hkey.
  reflexivity.
Qed.

End HandleFacts.

(** The event [@builder --unknown] names none of the five keys. *)
Lemma Handle_unmatched_key_witness :
  builder.Handle builder.specParts examples.runtime examples.kbcli
    "@builder --unknown" true None
  = ((api.zeroMessage, Some errUnsupportedCommand),
     [ mkLogEntry DebugLevel "Extracted Slack state"
         [ ("namespace", "default"); ("resourceName", EmptyString);
           ("verb", EmptyString); ("cmd", EmptyString) ];
       mkLogEntry ErrorLevel "Cannot render the kbcli command builder."
         [("error", "unsupported command")] ]).
Proof.
  refine (proj1 (Handle_unmatched_key builder.specParts examples.runtime
                   examples.kbcli "@builder --unknown" None "@builder"
                   "--unknown" [] _ _ _ _)).
  - vm_compute. reflexivity.
  - vm_compute. discriminate.
  - vm_compute. reflexivity.
  - intros H. apply list_elem_of_In in H. vm_compute in H.
    intuition discriminate.
Defined.

(** C1, as the design document states it, does not hold: for the event
    [@builder --unknown]
    [Handle] returns no message that tells that the command is not
    supported; it returns the empty message and propagates the error
    [errUnsupportedCommand] to the caller. *)
Lemma Handle_unmatched_key_counterexample :
  let r := fst (builder.Handle builder.specParts examples.runtime
                  examples.kbcli "@builder --unknown" true None) in
  snd r = Some errUnsupportedCommand
  ∧ fst r = api.zeroMessage
  ∧ ¬ (∃ msg, r = (msg, None))
  ∧ r ≠ builder.errMessage builder.specParts examples.runtime examples.allCmds
          (builder.notSupportedText EmptyString).
Proof.
  vm_compute. repeat split; try discriminate.
  intros [msg H]. discriminate.
Qed.

(** ** The renderer *)

Section RenderFacts.

Import builder.

Variable p : Parts.
Variable rt : Runtime.
Variable e : Kbcli.

(** C2, as the code has it. The renderer is given the current selection
    only and takes no account of the command of the previous pass.  The
    output state of a pass is the state from which the preview of the
    returned message is built.  In a pass that does not fail, the output
    state keeps the command, the filter and the group of menus, and
    - when the command has no verb menu, verb, resource name and
      namespace are cleared, and the message has the command menu and
      the preview of the output state;
    - when it has one and the verb is not its initial option, the state
      is left as it is, and the message has the command menu and the
      verb menu only, without a preview;
    - when the verb is the initial option of the verb menu, the verb is
      kept, also when the command has just changed; resource name and
      namespace are cleared when there is no resource-name menu, and
      otherwise each is kept exactly when it is the initial option of
      its menu; the message has the command and verb menus, the
      resource-name and namespace menus when there is a resource-name
      menu, and the preview of the output state. *)
Theorem renderMessage_output_state (details : stateDetails)
  (allCmds allVerbs : list string) (allCmdsSelect : api.Select) :
  let out := fst (fst (renderMessage_st p rt e details allCmds allVerbs)) in
  let returned := fst (renderMessage p rt e details allCmds allVerbs) in
  let matchingVerbs :=
    fst (getAllowedVerbsSelectList p e (cmd details) allVerbs (verb details)) in
  let resNames := fst (tryToGetResourceNamesSelect p rt e details) in
  let nsNames := fst (tryToGetNamespaceSelect p e details) in
  let preview := fst (buildCommandPreview p e out) in
  let message := KbcliCmdBuilderMessage p (dropdownsBlockID details)
                   allCmdsSelect in
  CmdSelect p allCmds (cmd details) = Some allCmdsSelect →
  snd (getAllowedVerbsSelectList p e (cmd details) allVerbs (verb details))
    = None →
  snd returned = None
  ∧ cmd out = cmd details
  ∧ filter out = filter details
  ∧ dropdownsBlockID out = dropdownsBlockID details
  ∧ match matchingVerbs with
    | None =>
        verb out = EmptyString ∧ resourceName out = EmptyString
        ∧ namespace out = EmptyString
        ∧ fst returned = message [WithAdditionalSections preview]
    | Some _ =>
        verb out = verb details
        ∧ if contains matchingVerbs (verb details) then
            match resNames with
            | None =>
                resourceName out = EmptyString ∧ namespace out = EmptyString
                ∧ fst returned
                  = message [ WithAdditionalSelects [matchingVerbs];
                              WithAdditionalSections preview ]
            | Some _ =>
                resourceName out
                = (if contains resNames (resourceName details)
                   then resourceName details else EmptyString)
                ∧ namespace out
                  = (if contains nsNames (namespace details)
                     then namespace details else EmptyString)
                ∧ fst returned
                  = message [ WithAdditionalSelects
                                [matchingVerbs; resNames; nsNames];
                              WithAdditionalSections preview ]
            end
          else out = details
               ∧ fst returned = message [WithAdditionalSelects [matchingVerbs]]
    end.
Proof.
  intros out returned matchingVerbs resNames nsNames preview message Hcmd Herr.
  subst out returned matchingVerbs resNames nsNames preview message.
  unfold renderMessage.
  destruct (renderMessage_st p rt e details allCmds allVerbs) as [r l] eqn:Hr.
  cbn [fst snd].
  replace r with (fst (renderMessage_st p rt e details allCmds allVerbs))
    by (by rewrite Hr).
  clear Hr. unfold renderMessage_st. rewrite Hcmd.
  destruct (getAllowedVerbsSelectList p e (cmd details) allVerbs (verb details))
    as [matchingVerbs err].
  simpl in Herr. subst err. cbn [fst].
  destruct matchingVerbs as [verbsSelect|].
  - destruct (contains (Some verbsSelect) (verb details)); simpl negb; cbv iota.
    + rewrite !bind_fst.
      destruct (tryToGetResourceNamesSelect p rt e details).1 as [resSelect|].
      * rewrite !bind_fst. simpl.
        destruct (contains (Some resSelect) (resourceName details)); simpl;
          destruct (contains (tryToGetNamespaceSelect p e details).1
                      (namespace details)); done.
      * rewrite !bind_fst. done.
    + done.
  - rewrite !bind_fst. done.
Qed.

End RenderFacts.

(** The command [cluster] with its verb [list], a cluster of the list
    and a namespace of the list: the whole selection is kept, and the
    message has the four menus and the preview of that selection. *)
Lemma renderMessage_output_state_witness :
  let details :=
    builder.mkStateDetails "b1" "cluster" "default" "list" "pg" EmptyString in
  let out :=
    fst (fst (builder.renderMessage_st builder.specParts examples.runtime
                examples.kbcli details examples.allCmds examples.allVerbs)) in
  let returned :=
    fst (builder.renderMessage builder.specParts examples.runtime
           examples.kbcli details examples.allCmds examples.allVerbs) in
  snd returned = None
  ∧ builder.cmd out = "cluster"
  ∧ builder.filter out = EmptyString
  ∧ builder.dropdownsBlockID out = "b1"
  ∧ builder.verb out = "list"
  ∧ builder.resourceName out = "pg"
  ∧ builder.namespace out = "default"
  ∧ (map api.Select_Name ∘ api.Selects_Items ∘ api.Section_Selects)
      <$> head (api.Message_Sections (fst returned))
    = Some [ "Select command"; "Select verb"; "Select resource name";
             "Select namespace" ]
  ∧ (api.Body_CodeBlock ∘ api.Base_Body ∘ api.Section_Base)
      <$> last (api.Message_Sections (fst returned))
    = Some "kbcli cluster list pg -n default".
Proof.
  intros details out returned.
  destruct (builder.CmdSelect builder.specParts examples.allCmds
              (builder.cmd details)) as [sel|] eqn:Hsel;
    [|vm_compute in Hsel; discriminate].
  pose proof (renderMessage_output_state builder.specParts examples.runtime
                examples.kbcli details examples.allCmds examples.allVerbs sel)
    as H.
  cbv zeta in H.
  assert (H2 : snd (builder.getAllowedVerbsSelectList builder.specParts
                      examples.kbcli (builder.cmd details) examples.allVerbs
                      (builder.verb details)) = None)
    by (vm_compute; reflexivity).
  destruct (H Hsel H2) as (He & Hc & Hf & Hb & Hrest).
  split; [exact He|]. split; [exact Hc|]. split; [exact Hf|].
  split; [exact Hb|].
  vm_compute in Hsel. injection Hsel as <-.
  vm_compute in Hrest. destruct Hrest as (Hv & Hr & Hn & Hmsg).
  split; [exact Hv|]. split; [exact Hr|]. split; [exact Hn|].
  clear. vm_compute. split; reflexivity.
Defined.

(** C2, as the design document states it, does not hold. The previous
    pass had the command
    [cluster] with the verb [list]; the command menu is then changed to
    [clusterdefinition], whose verb set has [list] too.  The output
    state of the new pass still has the verb [list], and the preview
    shows it, in [renderMessage] and in [Handle] on the event of the
    command menu.  Changed the other way, from [clusterdefinition] to
    [cluster], the pass keeps the verb, the resource name and the
    namespace. *)
Lemma command_change_counterexample :
  let previous :=
    builder.mkStateDetails "b1" "cluster" "default" "list" "pg" EmptyString in
  let current :=
    builder.mkStateDetails "b1" "clusterdefinition" "default" "list" "pg"
      EmptyString in
  let r := fst (builder.renderMessage_st builder.specParts examples.runtime
                  examples.kbcli current examples.allCmds examples.allVerbs) in
  let r' := fst (builder.renderMessage_st builder.specParts examples.runtime
                   examples.kbcli previous examples.allCmds examples.allVerbs) in
  builder.cmd current ≠ builder.cmd previous
  ∧ builder.verb (fst r) = "list"
  ∧ ¬ (builder.verb (fst r) = EmptyString
       ∧ builder.resourceName (fst r) = EmptyString
       ∧ builder.namespace (fst r) = EmptyString)
  ∧ (api.Body_CodeBlock ∘ api.Base_Body ∘ api.Section_Base)
      <$> last (api.Message_Sections (fst (snd r)))
    = Some "kbcli clusterdefinition list"
  ∧ fst r' = previous
  ∧ builder.extractStateDetails (Some examples.changedCommandState) = current
  ∧ (api.Body_CodeBlock ∘ api.Base_Body ∘ api.Section_Base)
      <$> last (api.Message_Sections
                  (fst (fst (builder.Handle builder.specParts examples.runtime
                               examples.kbcli "@builder --cmds" true
                               (Some examples.changedCommandState)))))
    = Some "kbcli clusterdefinition list".
Proof.
  vm_compute. repeat split; try discriminate.
  intros (H & _). discriminate.
Qed.

(** ** The command preview *)

Lemma append_assoc (a b c : string) : (a +:+ b) +:+ c = a +:+ (b +:+ c).
Proof.
  induction a as [|x a IH]; [done|].
  change (String x ((a +:+ b) +:+ c) = String x (a +:+ (b +:+ c))).
  by rewrite IH.
Qed.

Lemma append_nil_r (a : string) : a +:+ EmptyString = a.
Proof.
  induction a as [|x a IH]; [done|].
  change (String x (a +:+ EmptyString) = String x a).
  by rewrite IH.
Qed.

Section PreviewFacts.

Import builder.

Variable p : Parts.
Variable rt : Runtime.
Variable e : Kbcli.

(** The text of the preview: [kbcli], the command and the verb, then the
    resource name when one is set, the namespace flag when the resource
    of the command is namespaced and a namespace is set, and the filter
    flag when the filter text is not empty, the text quoted by
    [strings.Quote] (the verb [%q] on printable ASCII text). *)
Lemma buildCommandPreview_text (state : stateDetails)
  (resourceDetails : command.Resource) :
  GetResourceDetails (commandGuard e) (cmd state) = (resourceDetails, None) →
  buildCommandPreview p e state
  = ret (PreviewSection p
           ("kbcli " +:+ cmd state +:+ " " +:+ verb state
            +:+ (if bool_decide (resourceName state = EmptyString)
                 then EmptyString else " " +:+ resourceName state)
            +:+ (if command.Namespaced resourceDetails
                    && negb (bool_decide (namespace state = EmptyString))
                 then " -n " +:+ namespace state else EmptyString)
            +:+ (if bool_decide (filter state = EmptyString)
                 then EmptyString
                 else " --filter=" +:+ strings.Quote (filter state)))
           (FilterSection p)).
Proof.
  intros Hrd. unfold buildCommandPreview. rewrite Hrd.
  unfold kbcliCommandName.
  destruct (bool_decide (resourceName state = EmptyString));
    destruct (command.Namespaced resourceDetails
              && negb (bool_decide (namespace state = EmptyString)));
    destruct (bool_decide (filter state = EmptyString));
    simpl negb; cbv iota; do 2 f_equal;
    repeat rewrite append_assoc; repeat rewrite append_nil_r; reflexivity.
Qed.

(** C4, as the code has it. For a filter text of printable ASCII
    characters (the empty text is one), the preview text is the one of
    [buildCommandPreview_text]: it starts with the name of the binary,
    [kbcli]; the [-n] fragment is there exactly when the resource of the
    command is namespaced and a namespace is set, the [--filter]
    fragment exactly when the filter text is not empty, and a failing
    guard gives the internal error section instead.  For the command
    [cluster], the verb [list] and the namespace [default] the text is
    [kbcli cluster list -n default].  The suffix [ (namespace)] is put on
    the label of the menu option only: the value of the option stays
    [default], and the preview is built from the state, not from the
    option. *)
Theorem buildCommandPreview_fragments (state : stateDetails) :
  (strings.isPrintable (filter state) = true →
   fst (buildCommandPreview p e state)
   = match GetResourceDetails (commandGuard e) (cmd state) with
     | (_, Some _) => [InternalErrorSection p]
     | (resourceDetails, None) =>
         PreviewSection p
           ("kbcli " +:+ cmd state +:+ " " +:+ verb state
            +:+ (if bool_decide (resourceName state = EmptyString)
                 then EmptyString else " " +:+ resourceName state)
            +:+ (if command.Namespaced resourceDetails
                    && negb (bool_decide (namespace state = EmptyString))
                 then " -n " +:+ namespace state else EmptyString)
            +:+ (if bool_decide (filter state = EmptyString)
                 then EmptyString
                 else " --filter=" +:+ strings.Quote (filter state)))
           (FilterSection p)
     end)
  ∧ (∀ kc cfg ns lister id,
       fst (buildCommandPreview p
              (NewKbcli kc cfg commandGuardOf ns lister)
              (mkStateDetails id "cluster" "default" "list" EmptyString
                 EmptyString))
       = PreviewSection p "kbcli cluster list -n default" (FilterSection p))
  ∧ (∀ item, Value (appendNamespaceSuffixIfDefault item) = Value item)
  ∧ appendNamespaceSuffixIfDefault (newDropdownItem "default" "default")
    = newDropdownItem "default (namespace)" "default"
  ∧ (∀ item, Name item ≠ "default" →
             appendNamespaceSuffixIfDefault item = item)
  ∧ (namespace state = "default" →
     ∃ allNs, fst (tryToGetNamespaceSelect p e state)
              = ResourceNamespaceSelect p
                  (newDropdownItem "default (namespace)" "default" :: allNs)
                  (newDropdownItem "default (namespace)" "default")).
Proof.
  split; [|split; [|split; [|split; [|split]]]].
  - intros _.
    destruct (GetResourceDetails (commandGuard e) (cmd state))
      as [resourceDetails [err|]] eqn:Hrd.
    + unfold buildCommandPreview. rewrite Hrd. by rewrite bind_fst.
    + by rewrite (buildCommandPreview_text state resourceDetails Hrd).
  - intros. reflexivity.
  - intros item. unfold appendNamespaceSuffixIfDefault.
    by destruct (bool_decide (Name item = "default")).
  - reflexivity.
  - intros item Hne. unfold appendNamespaceSuffixIfDefault.
    by rewrite bool_decide_eq_false_2.
  - intros Hns. unfold tryToGetNamespaceSelect. rewrite bind_fst, Hns.
    change (appendNamespaceSuffixIfDefault (newDropdownItem "default" "default"))
      with (newDropdownItem "default (namespace)" "default").
    assert (Happ : ∀ names allNs first,
      ∃ rest, appendNamespaces "default" names (first :: allNs) = first :: rest).
    { induction names as [|name names IH]; intros allNs first; simpl.
      - eauto.
      - destruct (bool_decide (name = "default")); [apply IH|].
        apply (IH (allNs ++ [newDropdownItem name name])). }
    destruct (Happ (fst (collectAdditionalNamespaces e)) []
                (newDropdownItem "default (namespace)" "default")) as [rest Hrest].
    exists rest. simpl. by rewrite Hrest.
Qed.

(** C5, as the code has it. For a command without a verb menu and a
    filter text of printable ASCII characters (the empty text is one),
    the render pass clears verb, resource name and namespace, and renders
    the command menu with no further menu, plus the preview, whose text
    is [kbcli], the command and an empty verb, followed by the
    [--filter] fragment when the filter text is not empty: never a
    verb, a resource name or a namespace. *)
Theorem renderMessage_no_verbs (details : stateDetails)
  (allCmds allVerbs : list string) (allCmdsSelect : api.Select)
  (resourceDetails : command.Resource) :
  CmdSelect p allCmds (cmd details) = Some allCmdsSelect →
  getAllowedVerbsSelectList p e (cmd details) allVerbs (verb details)
    = (None, None) →
  GetResourceDetails (commandGuard e) (cmd details) = (resourceDetails, None) →
  strings.isPrintable (filter details) = true →
  renderMessage_st p rt e details allCmds allVerbs
  = ret (mkStateDetails (dropdownsBlockID details) (cmd details) EmptyString
           EmptyString EmptyString (filter details),
         (KbcliCmdBuilderMessage p (dropdownsBlockID details) allCmdsSelect
            [WithAdditionalSections
               (PreviewSection p
                  ("kbcli " +:+ cmd details +:+ " "
                   +:+ (if bool_decide (filter details = EmptyString)
                        then EmptyString
                        else " --filter=" +:+ strings.Quote (filter details)))
                  (FilterSection p))],
          None)).
Proof.
  intros Hcmd Hverbs Hrd _. unfold renderMessage_st.
  rewrite Hcmd, Hverbs.
  rewrite (buildCommandPreview_text _ resourceDetails) by exact Hrd.
  rewrite bind_ret_l. unfold set_namespace, set_resourceName, set_verb. simpl.
  rewrite andb_false_r. reflexivity.
Qed.

End PreviewFacts.

(** The preview of [cluster list] in the namespace [default], with the
    guard of package [command]. *)
Lemma buildCommandPreview_fragments_witness :
  fst (builder.buildCommandPreview builder.specParts examples.kbcli
         (builder.mkStateDetails "b1" "cluster" "default" "list" EmptyString
            EmptyString))
  = builder.specPreviewSection "kbcli cluster list -n default"
      builder.specFilterSection.
Proof.
  destruct (buildCommandPreview_fragments builder.specParts examples.kbcli
              (builder.mkStateDetails "b1" "cluster" "default" "list"
                 EmptyString EmptyString)) as (_ & H & _).
  exact (H examples.runner builder.DefaultConfig "default" examples.lister "b1").
Defined.

(** C4, as the design document states it, does not hold: with the
    command [cluster], the
    verb [list] and the namespace [default] the preview text, in
    [buildCommandPreview] and in the message of the whole render pass,
    is [kbcli cluster list -n default], not [cluster list -n default]. *)
Lemma preview_text_counterexample :
  let details :=
    builder.mkStateDetails "b1" "cluster" "default" "list" EmptyString
      EmptyString in
  let previewText (sections : list api.Section) :=
    (api.Body_CodeBlock ∘ api.Base_Body ∘ api.Section_Base) <$> last sections in
  previewText (fst (builder.buildCommandPreview builder.specParts
                      examples.kbcli details))
  = Some "kbcli cluster list -n default"
  ∧ previewText (api.Message_Sections
                   (fst (fst (builder.renderMessage builder.specParts
                                examples.runtime examples.kbcli details
                                examples.allCmds examples.allVerbs))))
    = Some "kbcli cluster list -n default"
  ∧ fst (builder.buildCommandPreview builder.specParts examples.kbcli details)
    ≠ builder.specPreviewSection "cluster list -n default"
        builder.specFilterSection.
Proof. vm_compute. repeat split. discriminate. Qed.

(** The command [dashboard] has no verbs: only the command menu and the
    preview [kbcli dashboard ] are rendered, and the selection is
    cleared. *)
Lemma renderMessage_no_verbs_witness :
  let details :=
    builder.mkStateDetails "b1" "dashboard" "default" "list" "pg" EmptyString in
  let r :=
    fst (builder.renderMessage_st builder.specParts examples.runtime
           examples.kbcli details ["cluster"; "dashboard"] examples.allVerbs) in
  fst r = builder.mkStateDetails "b1" "dashboard" EmptyString EmptyString
            EmptyString EmptyString
  ∧ snd (snd r) = None
  ∧ (api.Selects_Items ∘ api.Section_Selects)
      <$> api.Message_Sections (fst (snd r))
    = [ option_list (builder.CmdSelect builder.specParts
                       ["cluster"; "dashboard"] "dashboard"); []; [] ]
  ∧ (api.Body_CodeBlock ∘ api.Base_Body ∘ api.Section_Base)
      <$> last (api.Message_Sections (fst (snd r)))
    = Some "kbcli dashboard ".
Proof.
  intros details r. subst r.
  destruct (builder.CmdSelect builder.specParts ["cluster"; "dashboard"]
              (builder.cmd details)) as [sel|] eqn:Hsel;
    [|vm_compute in Hsel; discriminate].
  rewrite (renderMessage_no_verbs builder.specParts examples.runtime
             examples.kbcli details ["cluster"; "dashboard"] examples.allVerbs
             sel command.zeroResource Hsel);
    [|vm_compute; reflexivity|vm_compute; reflexivity|vm_compute; reflexivity].
  vm_compute in Hsel. injection Hsel as <-.
  vm_compute. repeat split.
Defined.

(** C5, as the design document states it, does not hold: for the
    command [dashboard],
    which has no verbs, with the filter text [abc], the preview text is
    not the command token alone: it has the [--filter] fragment (and
    starts with [kbcli]). *)
Lemma no_verbs_preview_counterexample :
  let details :=
    builder.mkStateDetails "b1" "dashboard" "default" "list" "pg" "abc" in
  let r :=
    fst (builder.renderMessage_st builder.specParts examples.runtime
           examples.kbcli details ["cluster"; "dashboard"] examples.allVerbs) in
  let text :=
    default EmptyString
      ((api.Body_CodeBlock ∘ api.Base_Body ∘ api.Section_Base)
         <$> last (api.Message_Sections (fst (snd r)))) in
  command.GetAllowedVerbsForCmd "dashboard" examples.allVerbs = ([], None)
  ∧ text = "kbcli dashboard  --filter=" +:+ strings.dquote +:+ "abc"
           +:+ strings.dquote
  ∧ text ≠ "dashboard"
  ∧ text ≠ "kbcli dashboard"
  ∧ strings.Contains text "--filter=" = true.
Proof. vm_compute. repeat split; discriminate. Qed.

(** ** The renderer as a function of its inputs *)

Section Determinism.

Import builder.

Variable p : Parts.
Variables rt1 rt2 : Runtime.
Variables e1 e2 : Kbcli.
Variable details : stateDetails.
Variable allVerbs : list string.
Hypothesis Hsame : sameResponses rt1 e1 rt2 e2 details allVerbs.

Lemma getAllowedVerbsSelectList_same :
  getAllowedVerbsSelectList p e1 (cmd details) allVerbs (verb details)
  = getAllowedVerbsSelectList p e2 (cmd details) allVerbs (verb details).
Proof.
  destruct Hsame as (_ & _ & Hv & _).
  unfold getAllowedVerbsSelectList. by rewrite Hv.
Qed.

Lemma buildCommandPreview_same (state : stateDetails) :
  cmd state = cmd details →
  buildCommandPreview p e1 state = buildCommandPreview p e2 state.
Proof.
  destruct Hsame as (_ & _ & _ & Hd & _).
  intros Hcmd. unfold buildCommandPreview. by rewrite Hcmd, Hd.
Qed.

Lemma tryToGetResourceNamesSelect_same :
  tryToGetResourceNamesSelect p rt1 e1 details
  = tryToGetResourceNamesSelect p rt2 e2 details.
Proof.
  destruct Hsame as (_ & _ & _ & _ & Ht & _ & Hrun & _).
  unfold tryToGetResourceNamesSelect. by rewrite Hrun, Ht.
Qed.

Lemma tryToGetNamespaceSelect_same :
  tryToGetNamespaceSelect p e1 details = tryToGetNamespaceSelect p e2 details.
Proof.
  destruct Hsame as (Hcfg & _ & _ & _ & _ & _ & _ & Hls).
  unfold tryToGetNamespaceSelect, collectAdditionalNamespaces.
  by rewrite Hcfg, Hls.
Qed.

(** C7. The renderer is a function of the selection state and of the
    answers of its collaborators: two render passes of one selection
    state, in two worlds whose collaborators give the same answers to
    what the pass asks them, return the same output state, the same
    message, the same error and the same log entries.  The pass returns
    nothing else: it has no state of its own to hand on to the next
    pass. *)
Theorem renderMessage_deterministic (allCmds : list string) :
  renderMessage_st p rt1 e1 details allCmds allVerbs
  = renderMessage_st p rt2 e2 details allCmds allVerbs
  ∧ renderMessage p rt1 e1 details allCmds allVerbs
    = renderMessage p rt2 e2 details allCmds allVerbs.
Proof.
  assert (Hst : renderMessage_st p rt1 e1 details allCmds allVerbs
                = renderMessage_st p rt2 e2 details allCmds allVerbs).
  { unfold renderMessage_st.
    rewrite getAllowedVerbsSelectList_same, tryToGetResourceNamesSelect_same,
      tryToGetNamespaceSelect_same.
    destruct (CmdSelect p allCmds (cmd details)) as [allCmdsSelect|]; [|done].
    destruct (getAllowedVerbsSelectList p e2 (cmd details) allVerbs
                (verb details)) as [matchingVerbs [err|]]; [done|].
    destruct matchingVerbs as [verbsSelect|].
    - destruct (negb (contains (Some verbsSelect) (verb details))); [done|].
      unfold bind.
      destruct (tryToGetResourceNamesSelect p rt2 e2 details)
        as [[resSelect|] l1];
        destruct (tryToGetNamespaceSelect p e2 details) as [nsNames l2].
      + rewrite buildCommandPreview_same; [done|].
        destruct (negb (contains (Some resSelect) (resourceName details)));
          destruct (negb (contains nsNames _)); done.
      + rewrite buildCommandPreview_same; done.
    - rewrite buildCommandPreview_same; done. }
  split; [exact Hst|]. unfold renderMessage. by rewrite Hst.
Qed.

End Determinism.

(** Two worlds that answer a pass of [cluster list] alike. *)
Lemma renderMessage_deterministic_witness :
  let details :=
    builder.mkStateDetails "b1" "cluster" "default" "list" "pg" "abc" in
  builder.renderMessage builder.specParts examples.runtime examples.kbcli
    details examples.allCmds examples.allVerbs
  = builder.renderMessage builder.specParts examples.otherRuntime
      examples.otherKbcli details examples.allCmds examples.allVerbs.
Proof.
  intros details.
  apply (renderMessage_deterministic builder.specParts examples.runtime
           examples.otherRuntime examples.kbcli examples.otherKbcli details
           examples.allVerbs).
  unfold builder.sameResponses. vm_compute. repeat split.
Defined.

(** ** Resource names *)

Section ResourceNameFacts.

Import builder.

Variable p : Parts.
Variable rt : Runtime.
Variable e : Kbcli.

(** A render pass fails only without a command menu or with an error of
    the guard's verb lookup; the runner and the namespace lister cannot
    make it fail. *)
Lemma renderMessage_error (details : stateDetails)
  (allCmds allVerbs : list string) :
  snd (fst (renderMessage p rt e details allCmds allVerbs))
  = match CmdSelect p allCmds (cmd details) with
    | None => Some errRequiredCmdDropdown
    | Some _ =>
        snd (GetAllowedVerbsForCmd (commandGuard e) (cmd details) allVerbs)
    end.
Proof.
  unfold renderMessage.
  destruct (renderMessage_st p rt e details allCmds allVerbs) as [r l] eqn:Hr.
  simpl. replace r with (fst (renderMessage_st p rt e details allCmds allVerbs))
    by (by rewrite Hr).
  clear Hr. unfold renderMessage_st, getAllowedVerbsSelectList.
  destruct (CmdSelect p allCmds (cmd details)) as [allCmdsSelect|]; [|done].
  destruct (GetAllowedVerbsForCmd (commandGuard e) (cmd details) allVerbs)
    as [allowedVerbs [err|]]; [done|].
  destruct (VerbSelect p _ (verb details)) as [verbsSelect|].
  - destruct (negb (contains (Some verbsSelect) (verb details))); [done|].
    rewrite !bind_fst.
    destruct (fst (tryToGetResourceNamesSelect p rt e details));
      by rewrite !bind_fst.
  - by rewrite !bind_fst.
Qed.

(** C9. For a command with a fixed resource kind and a verb that is
    set, the resource names come from the runner, asked once with the
    command line that lists the resource kind.  When the runner fails,
    the result is the explicit empty resource-name menu and the error is
    logged at error level; when it succeeds, its output is split into
    non-empty lines, and the menu is the empty resource-name menu when
    there is none, and otherwise the menu over the lines, bounded by
    [overflowSentence], with the current resource name as the selected
    one.  The render pass does not fail on account of the runner: its
    error is that of the command menu or of the verb lookup, whatever
    the runner answers; and with a confirmed verb and a failing runner
    its message has the command menu, the verb menu, the empty
    resource-name menu and the namespace menu. *)
Theorem tryToGetResourceNamesSelect_runner (state : stateDetails)
  (allCmds allVerbs : list string) :
  verb state ≠ EmptyString →
  GetResourceTypeForCmd (commandGuard e) (cmd state) ≠ EmptyString →
  let answer :=
    RunKubectlCommand (kcRunner e) (Getenv rt "KUBECONFIG") (defaultNamespace e)
      (getNamesCmd (GetResourceTypeForCmd (commandGuard e) (cmd state))
         (namespace state)) in
  let r := tryToGetResourceNamesSelect p rt e state in
  match snd answer with
  | Some err =>
      fst r = EmptyResourceNameDropdown p
      ∧ last (snd r)
        = Some (mkLogEntry ErrorLevel
                  "Cannot fetch resource names. Returning empty resource name dropdown."
                  [("error", Error err)])
  | None =>
      let lines := getNonEmptyLines p (fst answer) in
      fst r = match lines with
              | [] => EmptyResourceNameDropdown p
              | _ => ResourceNamesSelect p (overflowSentence p lines)
                       (resourceName state)
              end
      ∧ Forall (λ entry, entryLevel entry ≠ ErrorLevel) (snd r)
  end
  ∧ (CmdSelect p allCmds (cmd state) ≠ None →
     snd (GetAllowedVerbsForCmd (commandGuard e) (cmd state) allVerbs) = None →
     snd (fst (renderMessage p rt e state allCmds allVerbs)) = None)
  ∧ (∀ allCmdsSelect verbsSelect emptySelect,
       CmdSelect p allCmds (cmd state) = Some allCmdsSelect →
       getAllowedVerbsSelectList p e (cmd state) allVerbs (verb state)
         = (Some verbsSelect, None) →
       contains (Some verbsSelect) (verb state) = true →
       is_Some (snd answer) →
       EmptyResourceNameDropdown p = Some emptySelect →
       ∃ preview,
         fst (renderMessage p rt e state allCmds allVerbs)
         = (KbcliCmdBuilderMessage p (dropdownsBlockID state) allCmdsSelect
              [ WithAdditionalSelects
                  [ Some verbsSelect; Some emptySelect;
                    fst (tryToGetNamespaceSelect p e state) ];
                WithAdditionalSections preview ],
            None)).
Proof.
  intros Hverb Htype answer r. subst answer r.
  match goal with |- ?A ∧ _ => assert (Hfirst : A) end; [|split; [exact Hfirst|split]].
  - unfold tryToGetResourceNamesSelect.
    rewrite (bool_decide_eq_false_2 _ Hverb), (bool_decide_eq_false_2 _ Htype).
    destruct (RunKubectlCommand _ _ _ _) as [out [err|]]; simpl snd; cbv iota.
    + split.
      * by rewrite ?bind_fst.
      * rewrite ?bind_snd. reflexivity.
    + simpl fst. cbv zeta. split.
      * rewrite ?bind_fst. by destruct (getNonEmptyLines p out).
      * rewrite ?bind_snd. simpl.
        destruct (getNonEmptyLines p out); simpl; repeat constructor; done.
  - intros Hcmd Herr. rewrite renderMessage_error.
    by destruct (CmdSelect p allCmds (cmd state)).
  - intros allCmdsSelect verbsSelect emptySelect Hcmd Hverbs Hcont [err Herr]
      Hempty.
    rewrite Herr in Hfirst. destruct Hfirst as [Hres _].
    rewrite Hempty in Hres.
    unfold renderMessage.
    destruct (renderMessage_st p rt e state allCmds allVerbs) as [res l] eqn:Hr.
    simpl.
    replace res with (fst (renderMessage_st p rt e state allCmds allVerbs))
      by (by rewrite Hr).
    clear Hr. unfold renderMessage_st.
    rewrite Hcmd, Hverbs, Hcont. simpl negb. cbv iota.
    rewrite !bind_fst, Hres, !bind_fst. simpl.
    destruct (contains (Some emptySelect) (resourceName state)); simpl;
      destruct (contains (fst (tryToGetNamespaceSelect p e state)) _); simpl;
      eexists; reflexivity.
Qed.

End ResourceNameFacts.

(** The failing runner, asked for the clusters of [cluster list]: the
    empty resource-name menu, an error in the log, and a render pass
    that returns a message with the four menus. *)
Lemma tryToGetResourceNamesSelect_runner_witness :
  let state :=
    builder.mkStateDetails "b1" "cluster" "default" "list" "pg" EmptyString in
  let r := builder.tryToGetResourceNamesSelect builder.specParts
             examples.runtime examples.failingKbcli state in
  let rendered :=
    fst (builder.renderMessage builder.specParts examples.runtime
           examples.failingKbcli state examples.allCmds examples.allVerbs) in
  (fst r = builder.specEmptyResourceNameDropdown
   ∧ last (snd r)
     = Some (mkLogEntry ErrorLevel
               "Cannot fetch resource names. Returning empty resource name dropdown."
               [("error", "exit status 1")]))
  ∧ snd rendered = None
  ∧ (map api.Select_Name ∘ api.Selects_Items ∘ api.Section_Selects)
      <$> head (api.Message_Sections (fst rendered))
    = Some [ "Select command"; "Select verb"; "No resources found";
             "Select namespace" ].
Proof.
  intros state r rendered.
  destruct (tryToGetResourceNamesSelect_runner builder.specParts
              examples.runtime examples.failingKbcli state examples.allCmds
              examples.allVerbs) as (H1 & H2 & H3).
  - vm_compute. discriminate.
  - vm_compute. discriminate.
  - split; [exact H1|]. split.
    + apply H2; vm_compute; [discriminate|reflexivity].
    + edestruct H3 as [preview Hmsg].
      * vm_compute. reflexivity.
      * vm_compute. reflexivity.
      * vm_compute. reflexivity.
      * vm_compute. eauto.
      * vm_compute. reflexivity.
      * subst rendered. rewrite Hmsg. vm_compute. reflexivity.
Defined.

(** ** The cap on the resource-name menu *)

Lemma truncationNotice_space (hidden : nat) :
  strings.Contains (builder.truncationNotice hidden) " " = true.
Proof. reflexivity. Qed.

Lemma selectOfNames_options (name command : string) (items : list string)
  (initial : string) :
  items ≠ [] →
  ∃ sel, builder.selectOfNames name command items initial = Some sel
         ∧ flat_map api.OptionGroup_Options (api.Select_OptionGroups sel)
           = map (λ item, api.mkOptionItem item item) items.
Proof.
  intros Hne. destruct items as [|item items]; [done|].
  eexists. split; [reflexivity|].
  simpl. rewrite app_nil_r, map_map. reflexivity.
Qed.

(** C6. With the menu helpers of the design document: for every list of
    more than 100 resource instance names, the names of the menu are
    the first 100 names of the list followed by one truncation notice,
    101 in all; the notice is none of the names of the list; and the
    assembled menu has these 101 options, each with its name as label
    and value. *)
Theorem overflowSentence_truncates (names : list string) (initial : string) :
  builder.dropdownItemsLimit < length names →
  Forall (λ name, builder.isInstanceName name = true) names →
  let menuNames := builder.overflowSentence builder.specParts names in
  let notice :=
    builder.truncationNotice (length names - builder.dropdownItemsLimit) in
  menuNames = firstn 100 names ++ [notice]
  ∧ length menuNames = 101
  ∧ (notice ∉ names)
  ∧ ∃ sel,
      builder.ResourceNamesSelect builder.specParts menuNames initial = Some sel
      ∧ flat_map api.OptionGroup_Options (api.Select_OptionGroups sel)
        = map (λ name, api.mkOptionItem name name) (firstn 100 names)
          ++ [api.mkOptionItem notice notice].
Proof.
  intros Hlen Hnames menuNames notice. subst menuNames notice.
  unfold builder.dropdownItemsLimit in *.
  assert (Heq : builder.overflowSentence builder.specParts names
                = firstn 100 names
                  ++ [builder.truncationNotice (length names - 100)]).
  { simpl. unfold builder.specOverflowSentence, builder.dropdownItemsLimit.
    destruct (Nat.ltb_spec 100 (length names)) as [Hlt|Hge]; [done|].
    exfalso. clear -Hlen Hge. lia. }
  split; [exact Heq|]. split; [|split].
  - rewrite Heq, length_app, length_firstn. cbn [length]. clear -Hlen. lia.
  - intros Hin. rewrite Forall_forall in Hnames.
    specialize (Hnames _ Hin). unfold builder.isInstanceName in Hnames.
    by rewrite truncationNotice_space in Hnames.
  - rewrite Heq. simpl builder.ResourceNamesSelect.
    destruct (selectOfNames_options "Select resource name"
                builder.resourceNamesDropdownCommand
                (firstn 100 names
                 ++ [builder.truncationNotice (length names - 100)]) initial)
      as (sel & Hsel & Hopts).
    { by destruct (firstn 100 names). }
    exists sel. split; [exact Hsel|]. by rewrite Hopts, map_app.
Qed.

(** The 101 names [c0] to [c100]: the menu has [c0] to [c99] and the
    notice that one more is not shown. *)
Lemma overflowSentence_truncates_witness :
  builder.overflowSentence builder.specParts examples.manyNames
  = firstn 100 examples.manyNames ++ ["... and 1 more"]
  ∧ length (builder.overflowSentence builder.specParts examples.manyNames) = 101
  ∧ "... and 1 more" ∉ examples.manyNames.
Proof.
  destruct (overflowSentence_truncates examples.manyNames EmptyString)
    as (H1 & H2 & H3 & _).
  - vm_compute. lia.
  - apply Forall_forall. intros name Hin.
    apply list_elem_of_In in Hin. vm_compute in Hin.
    repeat (destruct Hin as [<-|Hin]; [reflexivity|]). destruct Hin.
  - split; [exact H1|]. split; [exact H2|exact H3].
Defined.

(* ===================================================================== *)
(** * Further properties of the command guard *)
(* ===================================================================== *)

Section CommandGuardMore.

Import command statements.

Lemma firstNamed_Some (name : string) (resources : list APIResource)
  (res : APIResource) :
  firstNamed name resources = Some res → apiName res = name ∧ res ∈ resources.
Proof.
  unfold firstNamed. intros H. apply find_some in H as [Hin Hname].
  apply bool_decide_eq_true in Hname.
  split; [done|by apply list_elem_of_In].
Qed.

Lemma firstNamed_None (name : string) (resources : list APIResource) :
  firstNamed name resources = None
  ↔ ∀ res, res ∈ resources → apiName res ≠ name.
Proof.
  unfold firstNamed. split.
  - intros H res Hin Hname.
    apply list_elem_of_In in Hin.
    pose proof (find_none _ _ H res Hin) as Hf. simpl in Hf.
    by rewrite bool_decide_eq_true_2 in Hf.
  - intros H. induction resources as [|x l IH]; [done|]. simpl.
    rewrite bool_decide_eq_false_2 by (apply H; set_solver).
    apply IH. intros res Hin. apply H. set_solver.
Qed.

(** The map of a build that succeeds, with or without a tolerated
    error. *)
Lemma GetServerResourceMap_lookup (resList : list APIResourceList)
  (err : option error) (name : string) :
  let r := fst (GetServerResourceMap
                  (NewCommandGuard (mkDiscovery (resList, err)))) in
  snd r = None →
  fst r !! name = firstNamed name (flat_map APIResources resList).
Proof.
  intros r. subst r. unfold GetServerResourceMap. simpl.
  destruct err as [err|].
  - destruct (shouldIgnoreResourceListError err); simpl; [|done].
    intros _. rewrite !bind_fst. simpl.
    rewrite addLists_lookup. by rewrite lookup_empty.
  - intros _. rewrite !bind_fst. simpl.
    rewrite addLists_lookup. by rewrite lookup_empty.
Qed.

(** X1. Looking a resource type up in the map of a build that succeeded
    gives the name and the namespacing of the first descriptor of that
    name that discovery listed, and fails with [ErrResourceNotFound]
    exactly when no list has a resource of that name. *)
Theorem GetResourceDetailsFromMap_catalogue (resList : list APIResourceList)
  (err : option error) (name : string) :
  let r := fst (GetServerResourceMap
                  (NewCommandGuard (mkDiscovery (resList, err)))) in
  snd r = None →
  GetResourceDetailsFromMap name (fst r)
  = match firstNamed name (flat_map APIResources resList) with
    | Some res => (mkResource name (apiNamespaced res), None)
    | None => (zeroResource, Some ErrResourceNotFound)
    end
  ∧ (snd (GetResourceDetailsFromMap name (fst r)) = Some ErrResourceNotFound
     ↔ ∀ item res, item ∈ resList → res ∈ APIResources item →
                   apiName res ≠ name).
Proof.
  intros r Hok.
  pose proof (GetServerResourceMap_lookup resList err name Hok) as Hlook.
  fold r in Hlook. unfold GetResourceDetailsFromMap. rewrite Hlook.
  destruct (firstNamed name (flat_map APIResources resList)) as [res|] eqn:Hf.
  - apply firstNamed_Some in Hf as [Hname Hin]. rewrite Hname.
    split; [done|]. split; [done|].
    intros Hnone. exfalso.
    apply list_elem_of_In, in_flat_map in Hin as (item & Hitem & Hres).
    apply (Hnone item res); [by apply list_elem_of_In..|done].
  - split; [done|]. split; [|done]. intros _ item res Hitem Hres.
    rewrite firstNamed_None in Hf. apply Hf.
    apply list_elem_of_In, in_flat_map. exists item.
    split; by apply list_elem_of_In.
Qed.

Lemma addResources_accounting (gv : string) (resources : list APIResource)
  (m : gmap string APIResource) :
  size (fst (addResources gv resources m))
  + length (entriesAt DebugLevel (snd (addResources gv resources m)))
  = size m + length resources
  ∧ entriesAt DebugLevel (snd (addResources gv resources m))
    = snd (addResources gv resources m).
Proof.
  revert m. induction resources as [|res rest IH]; intros m; simpl.
  - split; [lia|done].
  - destruct (m !! apiName res) eqn:Hres.
    + rewrite bind_fst, bind_snd. simpl.
      destruct (IH m) as [IH1 IH2]. unfold entriesAt in *.
      rewrite filter_cons. simpl.
      destruct (decide (DebugLevel = DebugLevel)); [|done].
      simpl. split; [lia|by rewrite IH2].
    + destruct (IH (<[apiName res := res]> m)) as [IH1 IH2].
      rewrite map_size_insert_None in IH1 by done. split; [lia|done].
Qed.

Lemma addLists_accounting (resList : list APIResourceList)
  (m : gmap string APIResource) :
  size (fst (addLists resList m))
  + length (entriesAt DebugLevel (snd (addLists resList m)))
  = size m + length (flat_map APIResources resList)
  ∧ entriesAt DebugLevel (snd (addLists resList m)) = snd (addLists resList m).
Proof.
  revert m. induction resList as [|item rest IH]; intros m; simpl.
  - split; [lia|done].
  - rewrite bind_fst, bind_snd.
    destruct (addResources_accounting (GroupVersion item) (APIResources item) m)
      as [H1 H2].
    destruct (IH (fst (addResources (GroupVersion item) (APIResources item) m)))
      as [IH1 IH2].
    unfold entriesAt in *. rewrite filter_app, length_app, length_app.
    split; [lia|by rewrite H2, IH2].
Qed.

Lemma entriesAt_debug_only (log : list LogEntry) (lvl : Level) :
  entriesAt DebugLevel log = log → lvl ≠ DebugLevel → entriesAt lvl log = [].
Proof.
  intros Hdbg Hlvl.
  replace (entriesAt lvl log) with (entriesAt lvl (entriesAt DebugLevel log))
    by (by rewrite Hdbg).
  clear Hdbg. unfold entriesAt. rewrite list_filter_filter.
  induction log as [|x l IH]; [done|].
  rewrite filter_cons.
  destruct (decide (entryLevel x = lvl ∧ entryLevel x = DebugLevel))
    as [[H1 H2]|_]; [congruence|done].
Qed.

(** A build that succeeds: the map and the log. *)
Lemma GetServerResourceMap_success (resList : list APIResourceList)
  (err : option error) :
  let out := GetServerResourceMap
               (NewCommandGuard (mkDiscovery (resList, err))) in
  snd (fst out) = None →
  out = ((fst (addLists resList ∅), None),
         match err with
         | Some err' =>
             [mkLogEntry WarnLevel
                ("Ignoring error while getting resource list from K8s cluster: "
                 +:+ Error err') []]
         | None => []
         end ++ snd (addLists resList ∅)).
Proof.
  intros out. subst out. unfold GetServerResourceMap. simpl.
  destruct err as [err|].
  - destruct (shouldIgnoreResourceListError err); simpl; [|done].
    intros _. unfold bind, logf, ret.
    destruct (addLists resList ∅) as [m l]. simpl. by rewrite app_nil_r.
  - intros _. unfold bind, ret.
    destruct (addLists resList ∅) as [m l]. simpl. by rewrite app_nil_r.
Qed.

(** X2. In a build that succeeds, every resource that discovery listed
    is either in the map or skipped with one debug entry in the log:
    the size of the map plus the number of debug entries is the number
    of resources listed.  The names of the map are the names listed,
    the log has one warning exactly when an error was tolerated, and
    nothing is logged as an error. *)
Theorem GetServerResourceMap_accounting (resList : list APIResourceList)
  (err : option error) :
  let out := GetServerResourceMap
               (NewCommandGuard (mkDiscovery (resList, err))) in
  snd (fst out) = None →
  size (fst (fst out)) + length (entriesAt DebugLevel (snd out))
  = length (flat_map APIResources resList)
  ∧ dom (fst (fst out))
    = list_to_set (apiName <$> flat_map APIResources resList)
  ∧ length (entriesAt WarnLevel (snd out))
    = match err with Some _ => 1 | None => 0 end
  ∧ entriesAt ErrorLevel (snd out) = [].
Proof.
  intros out Hok.
  assert (Hdom : dom (fst (fst out))
                 = list_to_set (apiName <$> flat_map APIResources resList)).
  { apply set_eq. intros name.
    rewrite elem_of_dom, elem_of_list_to_set, list_elem_of_fmap.
    subst out.
    rewrite (GetServerResourceMap_lookup resList err name Hok). split.
    - intros [res Hres]. apply firstNamed_Some in Hres as [Hname Hin]. eauto.
    - intros (res & -> & Hin).
      destruct (firstNamed (apiName res) (flat_map APIResources resList))
        eqn:Hf; [eauto|].
      rewrite firstNamed_None in Hf. by specialize (Hf res Hin). }
  pose proof (GetServerResourceMap_success resList err Hok) as Hout.
  fold out in Hout. rewrite Hout in *. simpl in *.
  destruct (addLists_accounting resList ∅) as [Hacc Hdbg].
  rewrite map_size_empty in Hacc.
  pose proof (entriesAt_debug_only _ WarnLevel Hdbg) as Hwarn.
  pose proof (entriesAt_debug_only _ ErrorLevel Hdbg) as Herr.
  unfold entriesAt in *.
  split; [|split; [exact Hdom|]].
  - destruct err; simpl; [rewrite filter_cons; simpl|]; lia.
  - destruct err; simpl; rewrite ?filter_cons; simpl;
      rewrite Hwarn, Herr by done; done.
Qed.


(** X3. Filtering the supported commands twice is filtering once, the
    filter goes through a concatenation, it never makes the list
    longer, and it leaves a list as it is exactly when the list has
    none of the commands of the denylist. *)
Theorem FilterSupportedCmds_compose (l1 l2 : list string) :
  FilterSupportedCmds (FilterSupportedCmds l1) = FilterSupportedCmds l1
  ∧ FilterSupportedCmds (l1 ++ l2)
    = FilterSupportedCmds l1 ++ FilterSupportedCmds l2
  ∧ (length (FilterSupportedCmds l1) ≤ length l1)%nat
  ∧ (FilterSupportedCmds l1 = l1 ↔ ("playground" ∉ l1) ∧ ("bench" ∉ l1)).
Proof.
  rewrite !FilterSupportedCmds_filter. split; [|split; [|split]].
  - rewrite list_filter_filter. apply list_filter_iff. tauto.
  - apply filter_app.
  - apply length_filter.
  - split.
    + intros H.
      assert (HF : Forall (λ s, s ∉ unsupportedGlobalCmds) l1).
      { rewrite <- H. apply Forall_forall. intros s Hs.
        by apply list_elem_of_filter in Hs as [? _]. }
      rewrite Forall_forall in HF. split; intros Hin;
        apply (HF _ Hin); apply unsupported_iff; tauto.
    + intros [Hp Hb]. induction l1 as [|x l IH]; [done|].
      apply not_elem_of_cons in Hp as [Hp1 Hp2].
      apply not_elem_of_cons in Hb as [Hb1 Hb2].
      rewrite filter_cons.
      destruct (decide (x ∉ unsupportedGlobalCmds)) as [Hx|Hx].
      * f_equal. by apply IH.
      * exfalso. apply Hx. rewrite unsupported_iff. by intros [?|?].
Qed.

(** X4. Whether a discovery error is tolerated does not depend on the
    order in which the per-group errors are visited (they are the values
    of a map), and a failure of the groups of two failures together is
    tolerated exactly when both are. *)
Theorem shouldIgnoreResourceListError_order
  (groups groups' : list (string * string)) :
  (groups ≡ₚ groups' →
   shouldIgnoreResourceListError (ErrGroupDiscoveryFailed groups)
   = shouldIgnoreResourceListError (ErrGroupDiscoveryFailed groups'))
  ∧ shouldIgnoreResourceListError (ErrGroupDiscoveryFailed (groups ++ groups'))
    = shouldIgnoreResourceListError (ErrGroupDiscoveryFailed groups)
      && shouldIgnoreResourceListError (ErrGroupDiscoveryFailed groups').
Proof.
  simpl. split.
  - intros Hperm.
    destruct (allEmptyResponses groups) eqn:H1;
      destruct (allEmptyResponses groups') eqn:H2; try done.
    + apply allEmptyResponses_Forall in H1. rewrite Hperm in H1.
      apply allEmptyResponses_Forall in H1. congruence.
    + apply allEmptyResponses_Forall in H2. rewrite <- Hperm in H2.
      apply allEmptyResponses_Forall in H2. congruence.
  - induction groups as [|[gv msg] rest IH]; simpl; [done|].
    by destruct (strings.Contains msg "Got empty response for").
Qed.

End CommandGuardMore.


(* ===================================================================== *)
(** * Further properties of the builder *)
(* ===================================================================== *)

Section ExtractFacts.

Import builder statements.

Lemma lastFor_nil (key : string) (proj : BlockAction → string) (d : string) :
  lastFor key proj [] d = d.
Proof. reflexivity. Qed.

Lemma lastFor_cons (key : string) (proj : BlockAction → string)
  (id : string) (act : BlockAction) (rest : list (string * BlockAction))
  (d : string) :
  lastFor key proj ((id, act) :: rest) d
  = lastFor key proj rest (if decide (fieldKey id = key) then proj act else d).
Proof.
  unfold lastFor. rewrite filter_cons. simpl.
  destruct (decide (fieldKey id = key)); [|done].
  rewrite last_cons.
  by destruct (last (base.filter (λ a, fieldKey a.1 = key) rest)).
Qed.

Lemma lastFor_app (key : string) (proj : BlockAction → string)
  (l1 l2 : list (string * BlockAction)) (d : string) :
  lastFor key proj (l1 ++ l2) d = lastFor key proj l2 (lastFor key proj l1 d).
Proof.
  revert d. induction l1 as [|[id act] l1 IH]; intros d; [done|].
  simpl. by rewrite !lastFor_cons, IH.
Qed.

Lemma extractBlock_spec (blocks : list (string * BlockAction))
  (d : stateDetails) :
  extractBlock blocks d
  = mkStateDetails (dropdownsBlockID d)
      (lastFor cmdsDropdownCommand SelectedOption_Value blocks (cmd d))
      (lastFor resourceNamespaceDropdownCommand SelectedOption_Value blocks
         (namespace d))
      (lastFor verbsDropdownCommand SelectedOption_Value blocks (verb d))
      (lastFor resourceNamesDropdownCommand SelectedOption_Value blocks
         (resourceName d))
      (lastFor filterPlaintextInputCommand BlockAction_Value blocks (filter d)).
Proof.
  revert d. induction blocks as [|[id act] rest IH]; intros d.
  - by destruct d.
  - simpl. rewrite IH, !lastFor_cons.
    change (strings.TrimSpace (strings.TrimPrefix id kbcliCommandName))
      with (fieldKey id).
    generalize (fieldKey id). intros k.
    unfold cmdsDropdownCommand, verbsDropdownCommand,
      resourceNamesDropdownCommand, resourceNamespaceDropdownCommand,
      filterPlaintextInputCommand.
    repeat case_bool_decide; simplify_eq; repeat case_decide; simplify_eq;
      done.
Qed.

Lemma lastMenuGroup_cons (blockID : string)
  (blocks : list (string * BlockAction))
  (rest : list (string * list (string * BlockAction))) (d : string) :
  lastMenuGroup ((blockID, blocks) :: rest) d
  = lastMenuGroup rest
      (if negb (strings.Contains blockID filterPlaintextInputCommand)
       then blockID else d).
Proof.
  unfold lastMenuGroup. simpl. rewrite filter_cons.
  destruct (strings.Contains blockID filterPlaintextInputCommand) eqn:Hc; simpl.
  - by destruct (decide (true = false)).
  - destruct (decide (false = false)); [|done]. rewrite last_cons.
    by destruct (last _).
Qed.

Lemma extractValues_spec (values : list (string * list (string * BlockAction)))
  (d : stateDetails) :
  extractValues values d
  = mkStateDetails (lastMenuGroup values (dropdownsBlockID d))
      (lastFor cmdsDropdownCommand SelectedOption_Value (allActions values)
         (cmd d))
      (lastFor resourceNamespaceDropdownCommand SelectedOption_Value
         (allActions values) (namespace d))
      (lastFor verbsDropdownCommand SelectedOption_Value (allActions values)
         (verb d))
      (lastFor resourceNamesDropdownCommand SelectedOption_Value
         (allActions values) (resourceName d))
      (lastFor filterPlaintextInputCommand BlockAction_Value (allActions values)
         (filter d)).
Proof.
  revert d. induction values as [|[blockID blocks] rest IH]; intros d.
  - by destruct d.
  - simpl. rewrite IH, extractBlock_spec, lastMenuGroup_cons.
    unfold allActions. simpl. rewrite !lastFor_app.
    by destruct (negb (strings.Contains blockID filterPlaintextInputCommand)).
Qed.

Lemma extractStateDetails_last_wins_aux (state : BlockActionStates) :
  extractStateDetails (Some state)
  = mkStateDetails (lastMenuGroup (Values state) EmptyString)
      (lastFor cmdsDropdownCommand SelectedOption_Value
         (allActions (Values state)) EmptyString)
      (lastFor resourceNamespaceDropdownCommand SelectedOption_Value
         (allActions (Values state)) EmptyString)
      (lastFor verbsDropdownCommand SelectedOption_Value
         (allActions (Values state)) EmptyString)
      (lastFor resourceNamesDropdownCommand SelectedOption_Value
         (allActions (Values state)) EmptyString)
      (lastFor filterPlaintextInputCommand BlockAction_Value
         (allActions (Values state)) EmptyString).
Proof. exact (extractValues_spec (Values state) zeroStateDetails). Qed.

(** X5. The extractor is last-writer-wins, field by field.  Each of
    command, verb, resource name and namespace is the selected option of
    the last action visited whose identifier, without the prefix [kbcli]
    and the white space around, is the key of that menu; the filter is
    the text of the last action for the filter key; the group of menus
    is the last block identifier that does not contain the filter key.
    A field for which there is no action is empty, actions under other
    identifiers change nothing, and no state at all gives the zero
    state. *)
Theorem extractStateDetails_last_wins (state : BlockActionStates) :
  extractStateDetails (Some state)
  = mkStateDetails (lastMenuGroup (Values state) EmptyString)
      (lastFor cmdsDropdownCommand SelectedOption_Value
         (allActions (Values state)) EmptyString)
      (lastFor resourceNamespaceDropdownCommand SelectedOption_Value
         (allActions (Values state)) EmptyString)
      (lastFor verbsDropdownCommand SelectedOption_Value
         (allActions (Values state)) EmptyString)
      (lastFor resourceNamesDropdownCommand SelectedOption_Value
         (allActions (Values state)) EmptyString)
      (lastFor filterPlaintextInputCommand BlockAction_Value
         (allActions (Values state)) EmptyString)
  ∧ extractStateDetails None = zeroStateDetails
  ∧ (Forall (λ a, fieldKey a.1 ∉ dispatcherKeys) (allActions (Values state)) →
     extractStateDetails (Some state)
     = set_dropdownsBlockID (lastMenuGroup (Values state) EmptyString)
         zeroStateDetails).
Proof.
  assert (Hspec := extractValues_spec (Values state) zeroStateDetails).
  split; [exact Hspec|]. split; [done|].
  intros Hnone. unfold extractStateDetails. rewrite Hspec.
  assert (Hno : ∀ key proj, key ∈ dispatcherKeys →
            lastFor key proj (allActions (Values state)) EmptyString
            = EmptyString).
  { intros key proj Hkey. unfold lastFor.
    assert (Hnil : base.filter (λ a, fieldKey a.1 = key)
                     (allActions (Values state)) = []).
    { revert Hnone. generalize (allActions (Values state)).
      intros l Hl. induction Hl as [|a l Ha _ IH]; [done|].
      rewrite filter_cons. destruct (decide (fieldKey a.1 = key)); [|done].
      congruence. }
    by rewrite Hnil. }
  unfold dispatcherKeys in Hno.
  rewrite !Hno by set_solver. done.
Qed.

Lemma short_Permutation {A} (l l' : list A) :
  l ≡ₚ l' → (length l ≤ 1)%nat → l = l'.
Proof.
  intros Hperm Hlen. destruct l as [|x [|y l]]; simpl in Hlen; [| |lia].
  - by apply Permutation_nil_l in Hperm.
  - by apply Permutation_singleton_l in Hperm.
Qed.

(** X6. When every field has at most one action and at most one block
    is a group of menus, the extracted state does not depend on the
    order in which the two maps of the state are visited. *)
Theorem extractStateDetails_order (state state' : BlockActionStates) :
  allActions (Values state) ≡ₚ allActions (Values state') →
  map fst (Values state) ≡ₚ map fst (Values state') →
  Forall (λ key,
            (length (base.filter (λ a, fieldKey a.1 = key)
                       (allActions (Values state))) ≤ 1)%nat)
    dispatcherKeys →
  (length (base.filter
             (λ blockID,
                strings.Contains blockID filterPlaintextInputCommand = false)
             (map fst (Values state))) ≤ 1)%nat →
  extractStateDetails (Some state) = extractStateDetails (Some state').
Proof.
  intros Hacts Hblocks Hkeys Hgroup.
  pose proof (extractStateDetails_last_wins_aux state) as Hs.
  pose proof (extractStateDetails_last_wins_aux state') as Hs'.
  rewrite Hs, Hs'.
  assert (Hfor : ∀ key proj d, key ∈ dispatcherKeys →
            lastFor key proj (allActions (Values state)) d
            = lastFor key proj (allActions (Values state')) d).
  { intros key proj d Hkey. unfold lastFor. f_equal. f_equal.
    apply short_Permutation; [by rewrite Hacts|].
    rewrite Forall_forall in Hkeys. by apply Hkeys. }
  unfold dispatcherKeys in Hfor.
  rewrite !Hfor by set_solver.
  f_equal. unfold lastMenuGroup. f_equal. f_equal.
  apply short_Permutation; [by rewrite Hblocks|done].
Qed.

End ExtractFacts.

Section NamespaceMenuFacts.

Import builder statements.

Variable p : Parts.
Variable e : Kbcli.

Lemma appendNamespaces_filter (current : string) (names : list string)
  (allNs : list dropdownItem) :
  appendNamespaces current names allNs
  = allNs ++ map (λ name, newDropdownItem name name)
               (base.filter (λ name, name ≠ current) names).
Proof.
  revert allNs. induction names as [|name rest IH]; intros allNs; simpl.
  - by rewrite app_nil_r.
  - rewrite filter_cons. case_bool_decide; case_decide; try done.
    rewrite IH. simpl. by rewrite <- app_assoc.
Qed.

(** X7. The namespace menu is made of the current namespace, first and
    initially selected (labelled [default (namespace)] when it is
    [default]), followed by the other namespaces in their order, without
    those equal to the current one, so that the value of the current
    namespace is offered once.  The other namespaces are the configured
    ones when there are any, and then the lister is not asked; otherwise
    they are those of the lister, asked for at most [dropdownItemsLimit]
    names, and none when the lister fails, which is logged as an
    error. *)
Theorem tryToGetNamespaceSelect_menu (details : stateDetails) :
  let initial :=
    appendNamespaceSuffixIfDefault
      (newDropdownItem (namespace details) (namespace details)) in
  let configured := Namespaces (Allowed (cfg e)) in
  let listed := List_ (namespaceLister e) dropdownItemsLimit in
  let additional :=
    match configured, snd listed with
    | _ :: _, _ => configured
    | [], None => fst listed
    | [], Some _ => []
    end in
  let others :=
    map (λ name, newDropdownItem name name)
      (base.filter (λ name, name ≠ namespace details) additional) in
  tryToGetNamespaceSelect p e details
  = (ResourceNamespaceSelect p (initial :: others) initial,
     match configured, snd listed with
     | [], Some err =>
         [mkLogEntry ErrorLevel
            "Cannot fetch all available Kubernetes namespaces, ignoring namespace dropdown..."
            [("error", Error err)]]
     | _, _ => []
     end)
  ∧ Value initial = namespace details
  ∧ namespace details ∉ map Value others.
Proof.
  intros initial configured listed additional others.
  subst initial configured listed additional others. split; [|split].
  - unfold tryToGetNamespaceSelect, collectAdditionalNamespaces.
    destruct (Namespaces (Allowed (cfg e))) as [|n ns] eqn:Hcfg; simpl.
    + destruct (List_ (namespaceLister e) dropdownItemsLimit) as [names [err|]];
        unfold bind, logf, ret; cbn [fst snd];
        rewrite appendNamespaces_filter; simpl; by rewrite ?app_nil_r.
    + unfold bind, ret. cbn [fst snd]. rewrite appendNamespaces_filter. simpl.
      by rewrite ?app_nil_r.
  - unfold appendNamespaceSuffixIfDefault. simpl. by case_bool_decide.
  - rewrite map_map. simpl. rewrite map_id.
    intros Hin. apply list_elem_of_filter in Hin as [Hne _]. done.
Qed.

End NamespaceMenuFacts.

Section RenderMore.

Import builder statements.

Variable p : Parts.

Lemma renderMessage_fst (rt : Runtime) (e : Kbcli) (details : stateDetails)
  (allCmds allVerbs : list string) :
  fst (renderMessage p rt e details allCmds allVerbs)
  = snd (fst (renderMessage_st p rt e details allCmds allVerbs)).
Proof.
  unfold renderMessage.
  by destruct (renderMessage_st p rt e details allCmds allVerbs) as [[? ?] ?].
Qed.

(** A render pass that fails returns the empty message. *)
Lemma renderMessage_failure_empty (rt : Runtime) (e : Kbcli)
  (details : stateDetails) (allCmds allVerbs : list string) :
  snd (fst (renderMessage p rt e details allCmds allVerbs)) ≠ None →
  fst (fst (renderMessage p rt e details allCmds allVerbs)) = api.zeroMessage.
Proof.
  rewrite renderMessage_fst. unfold renderMessage_st.
  destruct (CmdSelect p allCmds (cmd details)) as [allCmdsSelect|]; [|done].
  destruct (getAllowedVerbsSelectList p e (cmd details) allVerbs (verb details))
    as [matchingVerbs [err|]]; [done|].
  destruct matchingVerbs as [verbsSelect|].
  - destruct (negb (contains (Some verbsSelect) (verb details))); [done|].
    rewrite !bind_fst.
    destruct (fst (tryToGetResourceNamesSelect p rt e details));
      rewrite !bind_fst; done.
  - rewrite !bind_fst. done.
Qed.

(** X8. A render pass whose verb is not confirmed (the command has no
    verb menu, or the verb is not the selected option of the menu) asks
    neither the runner nor the namespace lister and reads neither the
    environment, the configuration nor the default namespace: with the
    same guard, it gives the same message, error and log in any world.
    When the guard resolves the resource of the command without an
    error, it logs nothing. *)
Theorem renderMessage_unconfirmed_verb (rt1 rt2 : Runtime) (e1 e2 : Kbcli)
  (details : stateDetails) (allCmds allVerbs : list string) :
  commandGuard e1 = commandGuard e2 →
  contains
    (fst (getAllowedVerbsSelectList p e1 (cmd details) allVerbs (verb details)))
    (verb details) = false →
  renderMessage p rt1 e1 details allCmds allVerbs
  = renderMessage p rt2 e2 details allCmds allVerbs
  ∧ (snd (GetResourceDetails (commandGuard e1) (cmd details)) = None →
     snd (renderMessage p rt1 e1 details allCmds allVerbs) = []).
Proof.
  intros Hguard Hcont.
  unfold renderMessage, renderMessage_st.
  unfold getAllowedVerbsSelectList in *. rewrite <- Hguard.
  destruct (CmdSelect p allCmds (cmd details)) as [allCmdsSelect|]; [|done].
  destruct (GetAllowedVerbsForCmd (commandGuard e1) (cmd details) allVerbs)
    as [allowedVerbs [err|]]; [done|].
  simpl in Hcont.
  destruct (VerbSelect p _ (verb details)) as [verbsSelect|].
  - rewrite Hcont. done.
  - unfold buildCommandPreview. simpl. rewrite <- Hguard.
    destruct (GetResourceDetails (commandGuard e1) (cmd details))
      as [resourceDetails [err|]]; [done|].
    split; [done|]. intros _. reflexivity.
Qed.

(** X9. With the guard of package [command], a command other than
    [cluster] has no fixed resource kind: once a verb is set, the
    resource names are not asked of the runner and there is no
    resource-name menu, and the preview never has the namespace flag,
    whatever namespace is set: the preview is that of the state without
    a namespace, and for a filter text of printable ASCII characters it
    is [kbcli], the command, the verb, the resource name when one is set
    and the filter flag when the filter text is not empty. *)
Theorem no_fixed_resource_kind (rt : Runtime) (kc : KubectlRunner)
  (cfg : Config) (ns : string) (lister : NamespaceLister)
  (state : stateDetails) :
  let e := NewKbcli kc cfg commandGuardOf ns lister in
  cmd state ≠ "cluster" →
  verb state ≠ EmptyString →
  tryToGetResourceNamesSelect p rt e state
  = (None, [mkLogEntry InfoLevel "Get resource names" []])
  ∧ buildCommandPreview p e state
    = buildCommandPreview p e (set_namespace EmptyString state)
  ∧ (strings.isPrintable (filter state) = true →
     buildCommandPreview p e state
     = ret (PreviewSection p
              ("kbcli " +:+ cmd state +:+ " " +:+ verb state
               +:+ (if bool_decide (resourceName state = EmptyString)
                    then EmptyString else " " +:+ resourceName state)
               +:+ (if bool_decide (filter state = EmptyString)
                    then EmptyString
                    else " --filter=" +:+ strings.Quote (filter state)))
              (FilterSection p))).
Proof.
  intros e Hcmd Hverb.
  assert (Hlook : command.cmdResource !! cmd state = None).
  { unfold command.cmdResource. by rewrite lookup_singleton_ne. }
  assert (Hrd : GetResourceDetails (commandGuard e) (cmd state)
                = (command.zeroResource, None)).
  { simpl. unfold command.GetResourceDetails. by rewrite Hlook. }
  split; [|split].
  - unfold tryToGetResourceNamesSelect.
    rewrite (bool_decide_eq_false_2 _ Hverb). simpl.
    unfold command.GetResourceTypeForCmd. rewrite Hlook. reflexivity.
  - unfold buildCommandPreview. cbn [builder.cmd set_namespace].
    rewrite Hrd. reflexivity.
  - intros _.
    rewrite (buildCommandPreview_text p e state command.zeroResource Hrd).
    simpl. reflexivity.
Qed.

End RenderMore.

Section HandleMore.

Import builder statements.

Variable p : Parts.
Variable rt : Runtime.
Variable e : Kbcli.

(** The executor registered under each of the five keys. *)
Lemma executors_lookup_Some (details : stateDetails)
  (allCmds allVerbs : list string) (key : string) :
  key ∈ dispatcherKeys →
  ∃ fn, executors p rt e details allCmds allVerbs !! key = Some fn
        ∧ fst (fn tt)
          = fst (renderMessage p rt e
                   (if bool_decide (key = verbsDropdownCommand
                                    ∨ key = resourceNamespaceDropdownCommand)
                    then set_resourceName EmptyString details
                    else details)
                   allCmds allVerbs).
Proof.
  unfold dispatcherKeys. intros Hkey.
  repeat (apply elem_of_cons in Hkey as [->|Hkey]);
    [..|by apply elem_of_nil in Hkey];
    unfold executors; simpl list_to_map;
    (eexists; split; [by simplify_map_eq|]).
  - by rewrite bool_decide_eq_false_2 by (by intros [?|?]).
  - rewrite bool_decide_eq_true_2 by (by left). by rewrite bind_fst.
  - by rewrite bool_decide_eq_false_2 by (by intros [?|?]).
  - by rewrite bool_decide_eq_true_2 by (by right).
  - by rewrite bool_decide_eq_false_2 by (by intros [?|?]).
Qed.

(** What [Handle] does once an event has two tokens or more. *)
Lemma Handle_dispatch (cmd : string) (state : option BlockActionStates)
  (args0 args1 : string) (rest : list string) :
  FilterSupportedCmds (commandGuard e) (Cmds (Allowed (cfg e))) ≠ [] →
  strings.Fields cmd = args0 :: args1 :: rest →
  let allCmds := FilterSupportedCmds (commandGuard e) (Cmds (Allowed (cfg e))) in
  let allVerbs := Verbs (Allowed (cfg e)) in
  let key := strings.ToLower (args0 +:+ " " +:+ args1) in
  let details := preparedState e state EmptyString in
  fst (Handle p rt e cmd true state)
  = match executors p rt e details allCmds allVerbs !! key with
    | None => (api.zeroMessage, Some errUnsupportedCommand)
    | Some fn =>
        match snd (fst (fn tt)) with
        | None => (fst (fst (fn tt)), None)
        | Some err =>
            if bool_decide (err = ErrCmdNotSupported)
            then errMessage p rt allCmds (notSupportedText (builder.cmd details))
            else (api.zeroMessage, Some err)
        end
    end.
Proof.
  intros Hcmds Hfields allCmds allVerbs key details.
  subst allCmds allVerbs key details.
  unfold Handle. simpl negb. cbv iota.
  destruct (FilterSupportedCmds (commandGuard e) (Cmds (Allowed (cfg e))))
    as [|c0 cs] eqn:Hall; [done|].
  simpl length. simpl Nat.eqb. cbv iota. rewrite Hfields.
  unfold preparedState.
  rewrite (bool_decide_eq_false_2
             (EmptyString = verbsDropdownCommand
              ∨ EmptyString = resourceNamespaceDropdownCommand))
    by (by intros [?|?]).
  rewrite !bind_fst. unfold SelectAndRun.
  destruct (executors _ _ _ _ _ _ !! _) as [fn|]; [|by rewrite ?bind_fst].
  destruct (fn tt) as [[msg [err|]] l]; simpl; [|done].
  case_bool_decide; [done|]. by rewrite ?bind_fst.
Qed.

(** X10. [Handle] never returns a message together with an error: when
    the error is not [nil], the message is the empty one.  This holds
    for every input, every guard and every collaborator. *)
Theorem Handle_error_empty_message (cmd : string)
  (isInteractivitySupported : bool) (state : option BlockActionStates) :
  snd (fst (Handle p rt e cmd isInteractivitySupported state)) ≠ None →
  fst (fst (Handle p rt e cmd isInteractivitySupported state)) = api.zeroMessage.
Proof.
  destruct isInteractivitySupported;
    [|unfold Handle; simpl negb; cbv iota; by rewrite ?bind_fst].
  destruct (decide (FilterSupportedCmds (commandGuard e) (Cmds (Allowed (cfg e)))
                    = [])) as [Hnil|Hcmds].
  { unfold Handle. simpl negb. cbv iota. rewrite Hnil. done. }
  destruct (strings.Fields cmd) as [|args0 [|args1 rest]] eqn:Hfields.
  1,2: unfold Handle; simpl negb; cbv iota;
       destruct (FilterSupportedCmds _ _) as [|c0 cs]; [done|];
       simpl length; simpl Nat.eqb; cbv iota; rewrite Hfields;
       unfold ret, initialMessage; simpl;
       destruct (uuidNewRandom rt) as [id [err|]]; [done|];
       by destruct (CmdSelect p _ _).
  rewrite (Handle_dispatch cmd state args0 args1 rest Hcmds Hfields).
  cbv zeta.
  destruct (executors _ _ _ _ _ _ !! _) as [fn|] eqn:Hfn; [|done].
  destruct (snd (fst (fn tt))) as [err|] eqn:Herr; [|done].
  case_bool_decide; [|done].
  unfold errMessage. destruct (uuidNewRandom rt) as [id [err'|]]; done.
Qed.

End HandleMore.

Section HandleMore2.

Import builder statements.

Variable p : Parts.
Variable rt : Runtime.
Variable e : Kbcli.

(** X11. [Handle] looks at the first two tokens of the command only, and
    without regard to letter case: two commands of ASCII text whose
    first two tokens are equal in lower case get the same answer,
    whatever follows the second token and however the tokens are
    spaced. *)
Theorem Handle_first_two_tokens (cmd cmd' : string)
  (isInteractivitySupported : bool) (state : option BlockActionStates)
  (args0 args1 args0' args1' : string) (rest rest' : list string) :
  strings.isASCII cmd = true →
  strings.isASCII cmd' = true →
  strings.Fields cmd = args0 :: args1 :: rest →
  strings.Fields cmd' = args0' :: args1' :: rest' →
  strings.ToLower (args0 +:+ " " +:+ args1)
  = strings.ToLower (args0' +:+ " " +:+ args1') →
  Handle p rt e cmd isInteractivitySupported state
  = Handle p rt e cmd' isInteractivitySupported state.
Proof.
  intros _ _ Hfields Hfields' Hlower. unfold Handle.
  destruct (negb isInteractivitySupported); [done|].
  destruct (length _ =? 0)%nat; [done|].
  rewrite Hfields, Hfields'. unfold SelectAndRun. by rewrite Hlower.
Qed.

(** X12. An event of ASCII text with fewer than two tokens (the empty
    command, or [@builder] alone) is answered with the initial message
    whatever the
    state of the menus is: the state is not read.  The initial message,
    when there is one, never replaces the original message, and there is
    one exactly when a UUID could be drawn and the command menu is not
    empty. *)
Theorem Handle_initial_message (cmd : string)
  (state : option BlockActionStates) :
  let allCmds := FilterSupportedCmds (commandGuard e) (Cmds (Allowed (cfg e))) in
  strings.isASCII cmd = true →
  allCmds ≠ [] →
  (length (strings.Fields cmd) < 2)%nat →
  Handle p rt e cmd true state = ret (initialMessage p rt allCmds)
  ∧ (∀ msg, initialMessage p rt allCmds = (msg, None) →
            api.Message_ReplaceOriginal msg = false)
  ∧ (snd (initialMessage p rt allCmds) = None
     ↔ snd (uuidNewRandom rt) = None
       ∧ CmdSelect p allCmds EmptyString ≠ None).
Proof.
  intros allCmds _ Hcmds Hlen. split; [|split].
  - unfold Handle. simpl negb. cbv iota. fold allCmds.
    destruct allCmds as [|c0 cs] eqn:Hall; [done|].
    simpl length. simpl Nat.eqb. cbv iota.
    destruct (strings.Fields cmd) as [|args0 [|args1 rest]]; simpl in Hlen;
      [done|done|lia].
  - intros msg. unfold initialMessage.
    destruct (uuidNewRandom rt) as [id [err|]]; [done|].
    destruct (CmdSelect p allCmds EmptyString); [|done].
    by intros [= <-].
  - unfold initialMessage.
    destruct (uuidNewRandom rt) as [id [err|]]; simpl; [by split; [|intros []]|].
    destruct (CmdSelect p allCmds EmptyString); simpl.
    + by split.
    + by split; [|intros []].
Qed.

(** X13. An event whose first two tokens are, in lower case, one of the
    five keys is answered by a render pass of the prepared state: the
    state extracted from the menus, with the default namespace where no
    namespace is selected, and without the resource name when the key is
    the one of the verb menu or of the namespace menu.  Message and error
    are those of that render pass (unless the pass fails with
    [command.ErrCmdNotSupported]). *)
Theorem Handle_renders_prepared_state (cmd : string)
  (state : option BlockActionStates) (args0 args1 : string)
  (rest : list string) :
  let allCmds := FilterSupportedCmds (commandGuard e) (Cmds (Allowed (cfg e))) in
  let key := strings.ToLower (args0 +:+ " " +:+ args1) in
  let rendered :=
    fst (renderMessage p rt e (preparedState e state key) allCmds
           (Verbs (Allowed (cfg e)))) in
  allCmds ≠ [] →
  strings.Fields cmd = args0 :: args1 :: rest →
  key ∈ dispatcherKeys →
  snd rendered ≠ Some ErrCmdNotSupported →
  fst (Handle p rt e cmd true state) = rendered.
Proof.
  intros allCmds key rendered Hcmds Hfields Hkey Hsupported.
  rewrite (Handle_dispatch p rt e cmd state args0 args1 rest Hcmds Hfields).
  cbv zeta. fold allCmds key.
  destruct (executors_lookup_Some p rt e (preparedState e state EmptyString)
              allCmds (Verbs (Allowed (cfg e))) key Hkey) as (fn & Hfn & Hrun).
  rewrite Hfn.
  assert (Hprep : (if bool_decide (key = verbsDropdownCommand
                                   ∨ key = resourceNamespaceDropdownCommand)
                   then set_resourceName EmptyString
                          (preparedState e state EmptyString)
                   else preparedState e state EmptyString)
                  = preparedState e state key).
  { unfold preparedState.
    rewrite (bool_decide_eq_false_2
               (EmptyString = verbsDropdownCommand
                ∨ EmptyString = resourceNamespaceDropdownCommand))
      by (by intros [?|?]).
    done. }
  rewrite Hprep in Hrun. fold rendered in Hrun. rewrite Hrun.
  destruct (snd rendered) as [err|] eqn:Herr.
  - rewrite bool_decide_eq_false_2 by congruence.
    pose proof (renderMessage_failure_empty p rt e (preparedState e state key)
                  allCmds (Verbs (Allowed (cfg e)))) as Hempty.
    fold rendered in Hempty. rewrite Herr in Hempty.
    destruct rendered as [msg err']. simpl in *. subst err'.
    by rewrite Hempty.
  - destruct rendered as [msg err']. simpl in *. by subst err'.
Qed.

End HandleMore2.

Section HandleWithGuard.

Import builder statements.

Variable p : Parts.
Variable rt : Runtime.

(** X14. With the guard of package [command], the only errors that
    [Handle] returns are: none, the missing command menu, the unknown
    dispatcher key, and the error of the UUID source.  In particular no
    render pass fails with [command.ErrCmdNotSupported], so that the
    branch of [Handle] that answers this error is never taken. *)
Theorem Handle_errors_with_guard (kc : KubectlRunner) (cfg : Config)
  (ns : string) (lister : NamespaceLister) (cmd : string)
  (isInteractivitySupported : bool) (state : option BlockActionStates) :
  let e := NewKbcli kc cfg commandGuardOf ns lister in
  let err := snd (fst (Handle p rt e cmd isInteractivitySupported state)) in
  (err = None ∨ err = Some errRequiredCmdDropdown
   ∨ err = Some errUnsupportedCommand ∨ err = snd (uuidNewRandom rt))
  ∧ ∀ details allCmds allVerbs,
      snd (fst (renderMessage p rt e details allCmds allVerbs))
      ≠ Some ErrCmdNotSupported.
Proof.
  intros e err.
  assert (Hrender : ∀ details allCmds allVerbs,
            snd (fst (renderMessage p rt e details allCmds allVerbs)) = None
            ∨ snd (fst (renderMessage p rt e details allCmds allVerbs))
              = Some errRequiredCmdDropdown).
  { intros details allCmds allVerbs. rewrite renderMessage_error.
    destruct (CmdSelect p allCmds (builder.cmd details)); [left|by right].
    simpl. unfold command.GetAllowedVerbsForCmd.
    by destruct (command.cmdVerbs !! builder.cmd details). }
  split.
  2: { intros details allCmds allVerbs.
       destruct (Hrender details allCmds allVerbs) as [-> | ->]; done. }
  subst err.
  destruct isInteractivitySupported;
    [|left; unfold Handle; simpl negb; cbv iota; by rewrite ?bind_fst].
  destruct (decide (FilterSupportedCmds (commandGuard e) (Cmds (Allowed (builder.cfg e)))
                    = [])) as [Hnil|Hcmds].
  { left. unfold Handle. simpl negb. cbv iota. rewrite Hnil. done. }
  destruct (strings.Fields cmd) as [|args0 [|args1 rest]] eqn:Hfields.
  1,2: unfold Handle; simpl negb; cbv iota;
       destruct (FilterSupportedCmds _ _) as [|c0 cs]; [done|];
       simpl length; simpl Nat.eqb; cbv iota; rewrite Hfields;
       unfold ret, initialMessage; cbn [fst snd];
       destruct (uuidNewRandom rt) as [id [uerr|]];
         [by right; right; right|];
       destruct (CmdSelect p _ _); [by left|by right; left].
  rewrite (Handle_dispatch p rt e cmd state args0 args1 rest Hcmds Hfields).
  cbv zeta.
  set (key := strings.ToLower (args0 +:+ " " +:+ args1)).
  destruct (decide (key ∈ dispatcherKeys)) as [Hkey|Hkey].
  - destruct (executors_lookup_Some p rt e (preparedState e state EmptyString)
                (FilterSupportedCmds (commandGuard e) (Cmds (Allowed (builder.cfg e))))
                (Verbs (Allowed (builder.cfg e))) key Hkey) as (fn & Hfn & Hrun).
    rewrite Hfn, Hrun.
    destruct (Hrender
                (if bool_decide (key = verbsDropdownCommand
                                 ∨ key = resourceNamespaceDropdownCommand)
                 then set_resourceName EmptyString
                        (preparedState e state EmptyString)
                 else preparedState e state EmptyString)
                (FilterSupportedCmds (commandGuard e) (Cmds (Allowed (builder.cfg e))))
                (Verbs (Allowed (builder.cfg e)))) as [-> | ->].
    + by left.
    + rewrite bool_decide_eq_false_2 by done. by right; left.
  - rewrite (executors_lookup_None p rt e) by exact Hkey.
    by right; right; left.
Qed.

End HandleWithGuard.

(* ===================================================================== *)
(** * Properties of the binary runner *)
(* ===================================================================== *)

Section RunnerFacts.

Import runner statements.

Variable libs : Libs.
Variable r : BinaryRunner.

Lemma runBinary_executions (binaryName kubeConfigPath defaultNamespace cmd : string) :
  let out := runBinary binaryName libs r kubeConfigPath defaultNamespace cmd in
  match snd out with
  | [] =>
      EqualFold cmd "options" = true
      ∨ snd (isNamespaceFlagSet libs cmd) ≠ None
  | [(line, envs)] =>
      EqualFold cmd "options" = false
      ∧ envs = {[ "KUBECONFIG" := kubeConfigPath ]}
      ∧ ∃ isNs, isNamespaceFlagSet libs cmd = (isNs, None)
                ∧ line = binaryName +:+ " "
                         +:+ (if isNs then cmd
                              else "-n " +:+ defaultNamespace +:+ " " +:+ cmd)
  | _ => False
  end
  ∧ (snd (fst out) ≠ None → fst (fst out) = EmptyString).
Proof.
  unfold runBinary.
  destruct (EqualFold cmd "options"); [by split; [left|]|].
  destruct (isNamespaceFlagSet libs cmd) as [isNs [err|]]; [by split; [right|]|].
  destruct (executeCommandWithEnvs r _ _) as [out [err|]]; simpl.
  - split; [|done]. split; [done|]. split; [done|].
    exists isNs. split; [done|]. by destruct isNs.
  - split; [|done]. split; [done|]. split; [done|].
    exists isNs. split; [done|]. by destruct isNs.
Qed.

(** X15. For a command of ASCII text, both runners execute at most one
    command line per call, with the one environment variable
    [KUBECONFIG] set to the kubeconfig path.  The line is the name of
    the binary and the command, and the
    command comes after [-n] and the default namespace whenever no
    namespace flag was found in it, so that every executed line carries
    a namespace.  Nothing is executed for the command [options] in any
    letter case, when the flags of the command do not parse, or, for
    [kbcli], when one of the two checks rejects the command. *)
Theorem runners_executions (kubeConfigPath defaultNamespace cmd : string) :
  strings.isASCII cmd = true →
  executedAs libs "kubectl" kubeConfigPath defaultNamespace cmd False
    (snd (RunKubectlCommand libs r kubeConfigPath defaultNamespace cmd))
  ∧ executedAs libs "kbcli" kubeConfigPath defaultNamespace cmd
      (detectNotSupportedCommands libs cmd ≠ None
       ∨ detectNotSupportedGlobalFlags libs cmd ≠ None)
      (snd (RunKbcliCommand libs r kubeConfigPath defaultNamespace cmd)).
Proof.
  intros _. unfold executedAs. split.
  - unfold RunKubectlCommand.
    destruct (runBinary_executions kcBinaryName kubeConfigPath defaultNamespace
                cmd) as [H _].
    cbv zeta in H.
    destruct (snd (runBinary kcBinaryName libs r kubeConfigPath
                     defaultNamespace cmd)) as [|[line envs] [|]];
      [by right| |done].
    split; [tauto|exact H].
  - unfold RunKbcliCommand.
    destruct (detectNotSupportedCommands libs cmd) as [err|] eqn:H1;
      [by left; left|].
    destruct (detectNotSupportedGlobalFlags libs cmd) as [err|] eqn:H2;
      [by left; right|].
    destruct (runBinary_executions kbBinaryName kubeConfigPath defaultNamespace
                cmd) as [H _].
    cbv zeta in H.
    destruct (snd (runBinary kbBinaryName libs r kubeConfigPath
                     defaultNamespace cmd)) as [|[line envs] [|]];
      [by right| |done].
    split; [by intros [?|?]|exact H].
Qed.

(** X16. Neither runner returns output together with an error: when the
    error is not [nil], the output is empty, and what the binary wrote
    is kept in the text of the error only, for [kubectl] and for
    [kbcli].  [RunKbcliCommand] returns
    the error of the first check that rejects the command, before
    anything else, also for the command [options]. *)
Theorem runners_error_no_output (kubeConfigPath defaultNamespace cmd : string) :
  let kc := fst (RunKubectlCommand libs r kubeConfigPath defaultNamespace cmd) in
  let kb := fst (RunKbcliCommand libs r kubeConfigPath defaultNamespace cmd) in
  (snd kc ≠ None → fst kc = EmptyString)
  ∧ (snd kb ≠ None → fst kb = EmptyString)
  ∧ (∀ line envs out err,
       snd (RunKubectlCommand libs r kubeConfigPath defaultNamespace cmd)
       = [(line, envs)] →
       executeCommandWithEnvs r line envs = (out, Some err) →
       kc = (EmptyString, Some (foreignError (out +:+ LF +:+ Error err))))
  ∧ match detectNotSupportedCommands libs cmd,
          detectNotSupportedGlobalFlags libs cmd with
    | Some err, _ => kb = (EmptyString, Some err)
    | None, Some err => kb = (EmptyString, Some err)
    | None, None =>
        kb = fst (runBinary kbBinaryName libs r kubeConfigPath defaultNamespace
                    cmd)
    end
  ∧ (∀ line envs out err,
       snd (RunKbcliCommand libs r kubeConfigPath defaultNamespace cmd)
       = [(line, envs)] →
       executeCommandWithEnvs r line envs = (out, Some err) →
       kb = (EmptyString, Some (foreignError (out +:+ LF +:+ Error err)))).
Proof.
  intros kc kb. subst kc kb. split; [|split; [|split; [|split]]].
  - apply (runBinary_executions kcBinaryName).
  - unfold RunKbcliCommand.
    destruct (detectNotSupportedCommands libs cmd); [done|].
    destruct (detectNotSupportedGlobalFlags libs cmd); [done|].
    apply (runBinary_executions kbBinaryName).
  - unfold RunKubectlCommand, runBinary. intros line envs out err.
    destruct (EqualFold cmd "options"); [done|].
    destruct (isNamespaceFlagSet libs cmd) as [isNs [perr|]]; [done|].
    destruct (executeCommandWithEnvs r _ _) as [out' [err'|]] eqn:Hexec;
      simpl; intros [= <- <-]; rewrite Hexec; by intros [= <- <-].
  - unfold RunKbcliCommand.
    destruct (detectNotSupportedCommands libs cmd); [done|].
    by destruct (detectNotSupportedGlobalFlags libs cmd).
  - unfold RunKbcliCommand, runBinary. intros line envs out err.
    destruct (detectNotSupportedCommands libs cmd); [done|].
    destruct (detectNotSupportedGlobalFlags libs cmd); [done|].
    destruct (EqualFold cmd "options"); [done|].
    destruct (isNamespaceFlagSet libs cmd) as [isNs [perr|]]; [done|].
    destruct (executeCommandWithEnvs r _ _) as [out' [err'|]] eqn:Hexec;
      simpl; intros [= <- <-]; rewrite Hexec; by intros [= <- <-].
Qed.

End RunnerFacts.

(* ===================================================================== *)
(** * The further properties at concrete inputs *)
(* ===================================================================== *)

(** The catalogue of [moreExamples.guard]: [pods] is the namespaced
    descriptor of the core group, and there is no [clusters]. *)
Lemma GetResourceDetailsFromMap_catalogue_witness :
  let r := fst (command.GetServerResourceMap moreExamples.guard) in
  snd r = None
  ∧ command.GetResourceDetailsFromMap "pods" (fst r)
    = (command.mkResource "pods" true, None)
  ∧ command.GetResourceDetailsFromMap "clusters" (fst r)
    = (command.zeroResource, Some ErrResourceNotFound).
Proof.
  intros r.
  assert (Hok : snd r = None) by (vm_compute; reflexivity).
  split; [exact Hok|]. split.
  - exact (proj1 (GetResourceDetailsFromMap_catalogue moreExamples.discovered
                    (Some moreExamples.emptyGroup) "pods" Hok)).
  - exact (proj1 (GetResourceDetailsFromMap_catalogue moreExamples.discovered
                    (Some moreExamples.emptyGroup) "clusters" Hok)).
Defined.

(** Five resources listed, three names kept, two skipped, one warning. *)
Lemma GetServerResourceMap_accounting_witness :
  let out := command.GetServerResourceMap moreExamples.guard in
  size (fst (fst out)) = 3
  ∧ length (statements.entriesAt DebugLevel (snd out)) = 2
  ∧ length (statements.entriesAt WarnLevel (snd out)) = 1
  ∧ dom (fst (fst out)) = {[ "pods"; "nodes"; "deployments" ]}.
Proof.
  intros out. subst out. unfold moreExamples.guard.
  assert (Hok : snd (fst (command.GetServerResourceMap
                            (command.NewCommandGuard
                               (command.mkDiscovery
                                  (moreExamples.discovered,
                                   Some moreExamples.emptyGroup))))) = None)
    by (vm_compute; reflexivity).
  destruct (GetServerResourceMap_accounting moreExamples.discovered
              (Some moreExamples.emptyGroup) Hok) as (Hsum & Hdom & Hwarn & _).
  cbv zeta in Hsum, Hdom, Hwarn.
  assert (Hdbg : length (statements.entriesAt DebugLevel
                           (snd (command.GetServerResourceMap
                                   (command.NewCommandGuard
                                      (command.mkDiscovery
                                         (moreExamples.discovered,
                                          Some moreExamples.emptyGroup))))))
                 = 2)
    by (vm_compute; reflexivity).
  split; [|split; [exact Hdbg|split; [exact Hwarn|]]].
  - rewrite Hdbg in Hsum. simpl in Hsum. lia.
  - rewrite Hdom. simpl. set_solver.
Defined.

(** The state [moreExamples.selection], visited in two orders. *)
Lemma extractStateDetails_order_witness :
  builder.extractStateDetails (Some moreExamples.selection)
  = builder.extractStateDetails (Some moreExamples.selectionReversed)
  ∧ builder.extractStateDetails (Some moreExamples.selection)
    = builder.mkStateDetails "b1" "cluster" "prod" "list" EmptyString "abc".
Proof.
  split; [|vm_compute; reflexivity].
  apply extractStateDetails_order.
  - change (statements.allActions (builder.Values moreExamples.selectionReversed))
      with (rev (statements.allActions (builder.Values moreExamples.selection))).
    apply Permutation_rev.
  - change (map fst (builder.Values moreExamples.selectionReversed))
      with (rev (map fst (builder.Values moreExamples.selection))).
    apply Permutation_rev.
  - repeat constructor; vm_compute; lia.
  - vm_compute. lia.
Defined.

(** Without a verb, the pass of [cluster] is the same with the working
    runner and with the failing one. *)
Lemma renderMessage_unconfirmed_verb_witness :
  let details :=
    builder.mkStateDetails "b1" "cluster" "default" EmptyString EmptyString
      EmptyString in
  builder.renderMessage builder.specParts examples.runtime examples.kbcli
    details examples.allCmds examples.allVerbs
  = builder.renderMessage builder.specParts examples.otherRuntime
      examples.failingKbcli details examples.allCmds examples.allVerbs
  ∧ snd (builder.renderMessage builder.specParts examples.runtime
           examples.kbcli details examples.allCmds examples.allVerbs) = [].
Proof.
  intros details.
  destruct (renderMessage_unconfirmed_verb builder.specParts examples.runtime
              examples.otherRuntime examples.kbcli examples.failingKbcli
              details examples.allCmds examples.allVerbs) as [H1 H2].
  - reflexivity.
  - vm_compute. reflexivity.
  - split; [exact H1|]. apply H2. vm_compute. reflexivity.
Defined.

(** The command [clusterdefinition] with the verb [list] and a namespace:
    no resource-name menu and no namespace flag. *)
Lemma no_fixed_resource_kind_witness :
  let state :=
    builder.mkStateDetails "b1" "clusterdefinition" "prod" "list" EmptyString
      EmptyString in
  fst (builder.tryToGetResourceNamesSelect builder.specParts examples.runtime
         examples.kbcli state) = None
  ∧ fst (builder.buildCommandPreview builder.specParts examples.kbcli state)
    = builder.specPreviewSection "kbcli clusterdefinition list"
        builder.specFilterSection.
Proof.
  intros state.
  destruct (no_fixed_resource_kind builder.specParts examples.runtime
              examples.runner builder.DefaultConfig "default" examples.lister
              state) as (H1 & _ & H3).
  - vm_compute. discriminate.
  - vm_compute. discriminate.
  - change examples.kbcli
      with (builder.NewKbcli examples.runner builder.DefaultConfig
              builder.commandGuardOf "default" examples.lister).
    split.
    + by rewrite H1.
    + rewrite H3; [reflexivity|]. vm_compute. reflexivity.
Defined.

(** The event [@builder --unknown] fails, with the empty message. *)
Lemma Handle_error_empty_message_witness :
  fst (fst (builder.Handle builder.specParts examples.runtime examples.kbcli
              "@builder --unknown" true None)) = api.zeroMessage.
Proof.
  apply Handle_error_empty_message. vm_compute. discriminate.
Defined.

(** Upper case, more spaces and further tokens change nothing. *)
Lemma Handle_first_two_tokens_witness :
  builder.Handle builder.specParts examples.runtime examples.kbcli
    "@builder --cmds" true (Some moreExamples.selection)
  = builder.Handle builder.specParts examples.runtime examples.kbcli
      "  @BUILDER   --Cmds cluster list" true (Some moreExamples.selection).
Proof.
  apply (Handle_first_two_tokens builder.specParts examples.runtime
           examples.kbcli "@builder --cmds" "  @BUILDER   --Cmds cluster list"
           true (Some moreExamples.selection) "@builder" "--cmds" "@BUILDER"
           "--Cmds" [] ["cluster"; "list"]);
    vm_compute; reflexivity.
Defined.

(** The event [@builder] alone starts a new message. *)
Lemma Handle_initial_message_witness :
  builder.Handle builder.specParts examples.runtime examples.kbcli "@builder"
    true (Some moreExamples.selection)
  = builder.Handle builder.specParts examples.runtime examples.kbcli "@builder"
      true None
  ∧ api.Message_ReplaceOriginal
      (fst (fst (builder.Handle builder.specParts examples.runtime
                   examples.kbcli "@builder" true None))) = false.
Proof.
  destruct (Handle_initial_message builder.specParts examples.runtime
              examples.kbcli "@builder" (Some moreExamples.selection))
    as (H1 & H2 & _);
    [vm_compute; reflexivity|vm_compute; discriminate|vm_compute; lia|].
  destruct (Handle_initial_message builder.specParts examples.runtime
              examples.kbcli "@builder" None) as (H1' & _ & _);
    [vm_compute; reflexivity|vm_compute; discriminate|vm_compute; lia|].
  split; [by rewrite H1, H1'|].
  rewrite H1'. apply H2. vm_compute. reflexivity.
Defined.

(** The event of the verb menu renders the state without the resource
    name. *)
Lemma Handle_renders_prepared_state_witness :
  fst (builder.Handle builder.specParts examples.runtime examples.kbcli
         "@builder --verbs" true (Some examples.changedCommandState))
  = fst (builder.renderMessage builder.specParts examples.runtime
           examples.kbcli
           (builder.mkStateDetails "b1" "clusterdefinition" "default" "list"
              EmptyString EmptyString)
           examples.allCmds examples.allVerbs).
Proof.
  apply (Handle_renders_prepared_state builder.specParts examples.runtime
           examples.kbcli "@builder --verbs"
           (Some examples.changedCommandState) "@builder" "--verbs" []).
  - vm_compute. discriminate.
  - vm_compute. reflexivity.
  - apply list_elem_of_In. vm_compute. tauto.
  - vm_compute. discriminate.
Defined.

(** Listing pods without a namespace flag runs one line, in the default
    namespace; the command [OPTIONS] runs nothing. *)
Lemma runners_executions_witness :
  snd (runner.RunKubectlCommand moreExamples.libs moreExamples.echo
         "/etc/kube/config" "default" "get pods")
  = [("kubectl -n default get pods", {[ "KUBECONFIG" := "/etc/kube/config" ]})]
  ∧ snd (runner.RunKbcliCommand moreExamples.libs moreExamples.echo
           "/etc/kube/config" "default" "OPTIONS") = []
  ∧ statements.executedAs moreExamples.libs "kubectl" "/etc/kube/config"
      "default" "get pods" False
      (snd (runner.RunKubectlCommand moreExamples.libs moreExamples.echo
              "/etc/kube/config" "default" "get pods")).
Proof.
  split; [vm_compute; reflexivity|]. split; [vm_compute; reflexivity|].
  refine (proj1 (runners_executions moreExamples.libs moreExamples.echo
                   "/etc/kube/config" "default" "get pods" _)).
  vm_compute. reflexivity.
Defined.
